(** * School-Darts: the presentation adapter (src/main.ts, src/ui.ts)
      checked against the darts scorekeeper specification.

    The adapter is embedded from its TypeScript source.  The game state
    engine it imports from "./state" (and the types of "./models") is not
    part of the checked sources; it is modelled from the specification and
    every such definition says so in its doc comment. *)

From Stdlib Require Import ZArith List String Bool Lia DecimalString.
Import ListNotations.
Open Scope string_scope.
Open Scope list_scope.
Open Scope Z_scope.

(* ================================================================== *)
(** ** Data model ("./models") *)

(** Modelled from the spec: models.ts is missing.  A Player has an identity,
    a display name and a count of legs won. *)
Record Player := mkPlayer {
  id : Z;
  name : string;
  legsWon : Z
}.

(** Modelled from the spec: models.ts is missing.  A Turn references its
    player, the points entered and the remaining score after the turn. *)
Record Turn := mkTurn {
  playerId : Z;
  points : Z;
  runningScore : Z
}.

(** Modelled from the spec: models.ts is missing.  The spec's Leg has a
    number, the chronological turns, a finished flag and a winner.  The
    starting score ("the Set's gameType value") is kept in the leg because
    [getRemainingScoreForPlayer] receives only the leg and a player id. *)
Record LegState := mkLeg {
  legNumber : Z;
  startingScore : Z;
  turns : list Turn;
  leg_isFinished : bool;
  leg_winner : option Z
}.

(** Modelled from the spec: models.ts is missing.  References to players
    (winner) are player ids. *)
Record SetState := mkSet {
  gameType : Z;
  maxLegs : Z;
  players : list Player;
  currentLeg : option LegState;
  isFinished : bool;
  winner : option Z
}.

(** Modelled from the spec: the result of addTurn,
    [{ legFinished: boolean, winner?: Player }]. *)
Record AddTurnResult := mkResult {
  legFinished : bool;
  res_winner : option Player
}.

(* ================================================================== *)
(** ** The game state engine ("./state") *)

Module Engine.

(** Modelled from the spec: state.ts is missing.  "Returns a Set with no
    players, currentLeg absent, isFinished=false."  The spec leaves the numeric
    fields of the idle set open; the adapter's defaults are used. *)
Definition createEmptySet : SetState :=
  mkSet 501 5 [] None false None.

(** Modelled from the spec: state.ts is missing.  Two players with fresh
    unique ids and legsWon = 0, and leg number 1 with no turns. *)
Definition startNewSet (player1Name player2Name : string)
    (gameTypeValue maxLegsValue : Z) : SetState :=
  mkSet gameTypeValue maxLegsValue
        [mkPlayer 1 player1Name 0; mkPlayer 2 player2Name 0]
        (Some (mkLeg 1 gameTypeValue [] false None))
        false None.

(** Sum of the points of the turns of one player. *)
Fixpoint pointsOf (pid : Z) (ts : list Turn) : Z :=
  match ts with
  | [] => 0
  | t :: ts' =>
      (if playerId t =? pid then points t else 0) + pointsOf pid ts'
  end.

(** Modelled from the spec: state.ts is missing.  "Returns gameType minus the
    sum of that player's points across all turns recorded so far in the given
    leg." *)
Definition getRemainingScoreForPlayer (leg : LegState) (pid : Z) : Z :=
  startingScore leg - pointsOf pid (turns leg).

(** Modelled from the spec: the player whose turn is next, "derived each time
    from turns.length % 2" (even count: player[0], odd count: player[1]). *)
Definition currentPlayer (s : SetState) (leg : LegState) : option Player :=
  nth_error (players s) (Nat.modulo (List.length (turns leg)) 2).

(** Modelled from the spec: state.ts is missing.  "Resolves the player whose
    turn is next and returns their display name; requires a current, unfinished
    leg."  The spec does not say what is returned outside the precondition:
    the model keeps the parity rule whenever a leg and the player exist and
    returns the empty string otherwise. *)
Definition getCurrentPlayerName (s : SetState) : string :=
  match currentLeg s with
  | None => ""
  | Some leg =>
      match currentPlayer s leg with
      | Some p => name p
      | None => ""
      end
  end.

(** The state part of addTurn's preconditions: a current leg exists, it is
    not finished and the set is not finished. *)
Definition addTurnReady (s : SetState) : bool :=
  match currentLeg s with
  | None => false
  | Some leg => negb (leg_isFinished leg) && negb (isFinished s)
  end.

(** The result that signals "no leg finish and no winner". *)
Definition noFinish : AddTurnResult := mkResult false None.

(** Replace the player with the given id. *)
Definition updatePlayer (p' : Player) (ps : list Player) : list Player :=
  map (fun p => if id p =? id p' then p' else p) ps.

(** Modelled from the spec: state.ts is missing.  The central transition:
    precondition failures and busts leave the set unchanged and report no
    leg finish and no winner; otherwise a Turn is appended, and a running
    score of 0 finishes the leg, credits the acting player and finishes the
    set once the threshold floor(maxLegs/2)+1 is reached. *)
Definition addTurn (s : SetState) (pts : Z) : SetState * AddTurnResult :=
  match currentLeg s with
  | None => (s, noFinish)
  | Some leg =>
      if leg_isFinished leg || isFinished s then (s, noFinish)
      else
        match currentPlayer s leg with
        | None => (s, noFinish)
        | Some p =>
            let remainingBefore := getRemainingScoreForPlayer leg (id p) in
            let running := remainingBefore - pts in
            if running <? 0 then (s, noFinish)
            else
              let turns' := turns leg ++ [mkTurn (id p) pts running] in
              if running =? 0 then
                let p' := mkPlayer (id p) (name p) (legsWon p + 1) in
                let leg' := mkLeg (legNumber leg) (startingScore leg) turns'
                                  true (Some (id p)) in
                let won := maxLegs s / 2 + 1 <=? legsWon p' in
                (mkSet (gameType s) (maxLegs s) (updatePlayer p' (players s))
                       (Some leg')
                       won
                       (if won then Some (id p) else winner s),
                 mkResult true (Some p'))
              else
                let leg' := mkLeg (legNumber leg) (startingScore leg) turns'
                                  (leg_isFinished leg) (leg_winner leg) in
                (mkSet (gameType s) (maxLegs s) (players s) (Some leg')
                       (isFinished s) (winner s),
                 noFinish)
        end
  end.

(** The bust test of addTurn, as a predicate of the state and the points:
    the call passes the state preconditions, an acting player exists and the
    remaining score minus the points is negative. *)
Definition isBust (s : SetState) (pts : Z) : bool :=
  match currentLeg s with
  | None => false
  | Some leg =>
      addTurnReady s &&
      match currentPlayer s leg with
      | None => false
      | Some p => getRemainingScoreForPlayer leg (id p) - pts <? 0
      end
  end.

(** Modelled from the spec: state.ts is missing.  Undo: "if the current leg
    has at least one turn and the leg is not finished, removes the most recent
    Turn"; a silent no-op when the leg or the set is finished. *)
Definition removeLastTurn (s : SetState) : SetState :=
  match currentLeg s with
  | None => s
  | Some leg =>
      if leg_isFinished leg || isFinished s then s
      else
        match turns leg with
        | [] => s
        | _ :: _ =>
            mkSet (gameType s) (maxLegs s) (players s)
                  (Some (mkLeg (legNumber leg) (startingScore leg)
                               (removelast (turns leg))
                               (leg_isFinished leg) (leg_winner leg)))
                  (isFinished s) (winner s)
        end
  end.

(** Modelled from the spec: state.ts is missing.  "True iff currentLeg exists,
    is finished, and the set itself is not finished." *)
Definition canStartNextLeg (s : SetState) : bool :=
  match currentLeg s with
  | None => false
  | Some leg => leg_isFinished leg && negb (isFinished s)
  end.

(** Modelled from the spec: state.ts is missing.  A new leg numbered one
    more than the current one, with no turns; a no-op when canStartNextLeg
    fails. *)
Definition startNextLeg (s : SetState) : SetState :=
  match currentLeg s with
  | None => s
  | Some leg =>
      if canStartNextLeg s then
        mkSet (gameType s) (maxLegs s) (players s)
              (Some (mkLeg (legNumber leg + 1) (gameType s) [] false None))
              (isFinished s) (winner s)
      else s
  end.

(** Modelled from the spec: state.ts is missing.  "Equivalent to discarding
    the Set and starting from createEmptySet()." *)
Definition resetSet (s : SetState) : SetState := createEmptySet.

End Engine.

(* ================================================================== *)
(** ** The page: DOM elements, the shared world and its effects *)

(** A table row: the text of each of its cells, in order. *)
Definition Row := list string.

(** The message element: its text and its class list (a DOMTokenList, an
    ordered collection of tokens). *)
Record MessageElement := mkMessage {
  textContent : string;
  classList : list string
}.

(** The points input: its current value and its disabled flag. *)
Record InputElement := mkInput {
  value : string;
  input_disabled : bool
}.

(** ui.ts, [UiElements]: the status elements are represented by their
    textContent, the table bodies by their rows and the buttons by their
    disabled flag. *)
Record UiElements := mkUi {
  message : MessageElement;
  statusGame : string;
  statusMaxLegs : string;
  statusLegNumber : string;
  statusCurrentPlayer : string;
  playersTableBody : list Row;
  turnsTableBody : list Row;
  addTurnButton : bool;
  undoTurnButton : bool;
  newLegButton : bool;
  pointsInput : InputElement
}.

(** What the adapter does to its collaborators, in order: calls into the
    engine (with the state the call received) and focus/select requests on
    the points input. *)
Inductive Event :=
| CallStartNewSet (player1 player2 : string) (gameTypeValue maxLegsValue : Z)
| CallResetSet (s : SetState)
| CallAddTurn (s : SetState) (pts : Z)
| CallRemoveLastTurn (s : SetState)
| CallCanStartNextLeg (s : SetState)
| CallStartNextLeg (s : SetState)
| CallGetRemainingScoreForPlayer (leg : LegState) (pid : Z)
| CallGetCurrentPlayerName (s : SetState)
| DomFocusPointsInput
| DomSelectPointsInput.

(** The objects main.ts holds: the module-level [setState] and [ui], which
    every function receives by reference, and the history of effects. *)
Record World := mkWorld {
  setState : SetState;
  ui : UiElements;
  trace : list Event
}.

(** Computations over the world. *)
Definition M (A : Type) : Type := World -> A * World.

Definition ret {A : Type} (a : A) : M A := fun w => (a, w).

Definition bind {A B : Type} (m : M A) (k : A -> M B) : M B :=
  fun w => k (fst (m w)) (snd (m w)).

Declare Scope world_scope.
Delimit Scope world_scope with world.
Notation "x <- m ;; k" := (bind m (fun x => k))
  (at level 61, m at next level, right associativity) : world_scope.
Notation "m ;; k" := (bind m (fun _ => k))
  (at level 61, right associativity) : world_scope.
Open Scope world_scope.

Definition exec {A : Type} (m : M A) (w : World) : World := snd (m w).

Definition getSetState : M SetState := fun w => (setState w, w).
Definition getUi : M UiElements := fun w => (ui w, w).

Definition modifyUi (f : UiElements -> UiElements) : M unit :=
  fun w => (tt, mkWorld (setState w) (f (ui w)) (trace w)).

Definition emit (e : Event) : M unit :=
  fun w => (tt, mkWorld (setState w) (ui w) (trace w ++ [e])).

(** [for (const x of xs) body(x)]. *)
Fixpoint forOf {A : Type} (xs : list A) (body : A -> M unit) : M unit :=
  match xs with
  | [] => ret tt
  | x :: xs' => body x ;; forOf xs' body
  end.

(** [xs.forEach((x, index) => body(x, index))], counting from [index]. *)
Fixpoint forEachFrom {A : Type} (index : Z) (xs : list A)
    (body : A -> Z -> M unit) : M unit :=
  match xs with
  | [] => ret tt
  | x :: xs' => body x index ;; forEachFrom (index + 1) xs' body
  end.

Definition forEach {A : Type} (xs : list A) (body : A -> Z -> M unit)
  : M unit := forEachFrom 0 xs body.

(** Field assignments on the elements. *)
Definition set_message (m : MessageElement) (u : UiElements) : UiElements :=
  mkUi m (statusGame u) (statusMaxLegs u) (statusLegNumber u)
       (statusCurrentPlayer u) (playersTableBody u) (turnsTableBody u)
       (addTurnButton u) (undoTurnButton u) (newLegButton u) (pointsInput u).

Definition set_statusGame (t : string) (u : UiElements) : UiElements :=
  mkUi (message u) t (statusMaxLegs u) (statusLegNumber u)
       (statusCurrentPlayer u) (playersTableBody u) (turnsTableBody u)
       (addTurnButton u) (undoTurnButton u) (newLegButton u) (pointsInput u).

Definition set_statusMaxLegs (t : string) (u : UiElements) : UiElements :=
  mkUi (message u) (statusGame u) t (statusLegNumber u)
       (statusCurrentPlayer u) (playersTableBody u) (turnsTableBody u)
       (addTurnButton u) (undoTurnButton u) (newLegButton u) (pointsInput u).

Definition set_statusLegNumber (t : string) (u : UiElements) : UiElements :=
  mkUi (message u) (statusGame u) (statusMaxLegs u) t
       (statusCurrentPlayer u) (playersTableBody u) (turnsTableBody u)
       (addTurnButton u) (undoTurnButton u) (newLegButton u) (pointsInput u).

Definition set_statusCurrentPlayer (t : string) (u : UiElements)
  : UiElements :=
  mkUi (message u) (statusGame u) (statusMaxLegs u) (statusLegNumber u)
       t (playersTableBody u) (turnsTableBody u)
       (addTurnButton u) (undoTurnButton u) (newLegButton u) (pointsInput u).

Definition set_playersTableBody (rows : list Row) (u : UiElements)
  : UiElements :=
  mkUi (message u) (statusGame u) (statusMaxLegs u) (statusLegNumber u)
       (statusCurrentPlayer u) rows (turnsTableBody u)
       (addTurnButton u) (undoTurnButton u) (newLegButton u) (pointsInput u).

Definition set_turnsTableBody (rows : list Row) (u : UiElements)
  : UiElements :=
  mkUi (message u) (statusGame u) (statusMaxLegs u) (statusLegNumber u)
       (statusCurrentPlayer u) (playersTableBody u) rows
       (addTurnButton u) (undoTurnButton u) (newLegButton u) (pointsInput u).

Definition set_addTurnButton (d : bool) (u : UiElements) : UiElements :=
  mkUi (message u) (statusGame u) (statusMaxLegs u) (statusLegNumber u)
       (statusCurrentPlayer u) (playersTableBody u) (turnsTableBody u)
       d (undoTurnButton u) (newLegButton u) (pointsInput u).

Definition set_undoTurnButton (d : bool) (u : UiElements) : UiElements :=
  mkUi (message u) (statusGame u) (statusMaxLegs u) (statusLegNumber u)
       (statusCurrentPlayer u) (playersTableBody u) (turnsTableBody u)
       (addTurnButton u) d (newLegButton u) (pointsInput u).

Definition set_newLegButton (d : bool) (u : UiElements) : UiElements :=
  mkUi (message u) (statusGame u) (statusMaxLegs u) (statusLegNumber u)
       (statusCurrentPlayer u) (playersTableBody u) (turnsTableBody u)
       (addTurnButton u) (undoTurnButton u) d (pointsInput u).

Definition set_pointsInput (i : InputElement) (u : UiElements)
  : UiElements :=
  mkUi (message u) (statusGame u) (statusMaxLegs u) (statusLegNumber u)
       (statusCurrentPlayer u) (playersTableBody u) (turnsTableBody u)
       (addTurnButton u) (undoTurnButton u) (newLegButton u) i.

(** [classList.remove(...tokens)] and [classList.add(token)]. *)
Definition classList_remove (tokens : list string) (cl : list string)
  : list string :=
  filter (fun c => negb (existsb (String.eqb c) tokens)) cl.

Definition classList_add (token : string) (cl : list string)
  : list string :=
  if existsb (String.eqb token) cl then cl else cl ++ [token].

(** [String(n)] for an integer [n]: its decimal numeral. *)
Definition String_ (n : Z) : string := NilZero.string_of_int (Z.to_int n).

(** The engine's queries, as the renderers call them. *)
Definition getRemainingScoreForPlayer (leg : LegState) (pid : Z) : M Z :=
  emit (CallGetRemainingScoreForPlayer leg pid) ;;
  ret (Engine.getRemainingScoreForPlayer leg pid).

Definition getCurrentPlayerName : M string :=
  s <- getSetState ;;
  emit (CallGetCurrentPlayerName s) ;;
  ret (Engine.getCurrentPlayerName s).

(* ================================================================== *)
(** ** ui.ts *)

(** [parent.appendChild(tr)] on the two table bodies. *)
Definition appendPlayersRow (tr : Row) : M unit :=
  modifyUi (fun u => set_playersTableBody (playersTableBody u ++ [tr]) u).

Definition appendTurnsRow (tr : Row) : M unit :=
  modifyUi (fun u => set_turnsTableBody (turnsTableBody u ++ [tr]) u).

(** ui.ts, [renderStatus]. *)
Definition renderStatus : M unit :=
  s <- getSetState ;;
  match currentLeg s with
  | None =>
      modifyUi (set_statusGame "–") ;;
      modifyUi (set_statusMaxLegs "–") ;;
      modifyUi (set_statusLegNumber "–") ;;
      modifyUi (set_statusCurrentPlayer "–")
  | Some leg =>
      modifyUi (set_statusGame (String_ (gameType s) ++ " down")%string) ;;
      modifyUi (set_statusMaxLegs ("Best of " ++ String_ (maxLegs s))%string) ;;
      modifyUi (set_statusLegNumber (String_ (legNumber leg))) ;;
      current <- (if isFinished s then ret "Set finished"
                  else getCurrentPlayerName) ;;
      modifyUi (set_statusCurrentPlayer current)
  end.

(** ui.ts, [renderPlayersTable]. *)
Definition renderPlayersTable : M unit :=
  s <- getSetState ;;
  let leg := currentLeg s in
  modifyUi (set_playersTableBody []) ;;
  match leg with
  | None => ret tt
  | Some leg =>
      forOf (players s) (fun player =>
        remaining <- getRemainingScoreForPlayer leg (id player) ;;
        appendPlayersRow
          [name player; String_ (legsWon player); String_ remaining])
  end.

(** ui.ts, [renderTurnsTable]. *)
Definition renderTurnsTable : M unit :=
  s <- getSetState ;;
  let leg := currentLeg s in
  modifyUi (set_turnsTableBody []) ;;
  match leg with
  | None => ret tt
  | Some leg =>
      forEach (turns leg) (fun turn index =>
        let player := find (fun p => id p =? playerId turn) (players s) in
        appendTurnsRow
          [String_ (index + 1);
           match player with Some p => name p | None => "?" end;
           String_ (points turn);
           String_ (runningScore turn)])
  end.

(** ui.ts, [renderButtons]. *)
Definition renderButtons : M unit :=
  s <- getSetState ;;
  let leg := currentLeg s in
  let hasSet := match leg with Some _ => true | None => false end in
  let setFinished := isFinished s in
  let legFinished :=
    match leg with Some l => leg_isFinished l | None => false end in
  modifyUi (set_addTurnButton (negb hasSet || setFinished || legFinished)) ;;
  modifyUi (set_undoTurnButton
              (negb hasSet || setFinished || legFinished ||
               match leg with
               | Some l => Nat.eqb (List.length (turns l)) 0
               | None => false
               end)) ;;
  modifyUi (set_newLegButton (negb hasSet || setFinished || negb legFinished)) ;;
  u <- getUi ;;
  modifyUi (set_pointsInput
              (mkInput (value (pointsInput u)) (addTurnButton u))).

(** ui.ts, [renderAll]. *)
Definition renderAll : M unit :=
  renderStatus ;;
  renderPlayersTable ;;
  renderTurnsTable ;;
  renderButtons.

(** Assignments and class-list calls on [ui.message]. *)
Definition setMessageText (text : string) : M unit :=
  modifyUi (fun u =>
    set_message (mkMessage text (classList (message u))) u).

Definition messageClassListRemove (tokens : list string) : M unit :=
  modifyUi (fun u =>
    set_message (mkMessage (textContent (message u))
                   (classList_remove tokens (classList (message u)))) u).

Definition messageClassListAdd (token : string) : M unit :=
  modifyUi (fun u =>
    set_message (mkMessage (textContent (message u))
                   (classList_add token (classList (message u)))) u).

(** ui.ts, [showInfoMessage]. *)
Definition showInfoMessage (text : string) : M unit :=
  setMessageText text ;;
  messageClassListRemove ["message--warning"; "message--success"] ;;
  messageClassListAdd "message--info".

(** ui.ts, [showWarningMessage]. *)
Definition showWarningMessage (text : string) : M unit :=
  setMessageText text ;;
  messageClassListRemove ["message--info"; "message--success"] ;;
  messageClassListAdd "message--warning".

(** ui.ts, [showSuccessMessage]. *)
Definition showSuccessMessage (text : string) : M unit :=
  setMessageText text ;;
  messageClassListRemove ["message--info"; "message--warning"] ;;
  messageClassListAdd "message--success".

(* ================================================================== *)
(** ** main.ts *)

(** The value of [Number(x)] as far as the adapter looks at it: an integer
    (what [Number.isInteger] accepts; -0 is the integer 0) or anything else
    (NaN, an infinity, a fraction). *)
Inductive JsNumber :=
| JInt (n : Z)
| JNonInteger.

(** The entries of a submitted form, by field name; [formData_get] is
    [FormData.get]: the first value of that name, or null. *)
Definition FormData := list (string * string).

Fixpoint formData_get (fd : FormData) (field : string) : option string :=
  match fd with
  | [] => None
  | (k, v) :: fd' => if String.eqb k field then Some v else formData_get fd' field
  end.

(** [x || fallback] on a form value: null and the empty string are falsy. *)
Definition orDefault {A : Type} (x : option string) (present : string -> A)
    (fallback : A) : A :=
  match x with
  | None => fallback
  | Some v => if String.eqb v "" then fallback else present v
  end.

(** The engine's transitions, as the handlers call them on the module-level
    [setState]. *)
Definition startNewSet (player1 player2 : string) (g m : Z) : M unit :=
  emit (CallStartNewSet player1 player2 g m) ;;
  (fun w => (tt, mkWorld (Engine.startNewSet player1 player2 g m)
                         (ui w) (trace w))).

Definition resetSet : M unit :=
  s <- getSetState ;;
  emit (CallResetSet s) ;;
  (fun w => (tt, mkWorld (Engine.resetSet s) (ui w) (trace w))).

Definition addTurn (pts : Z) : M AddTurnResult :=
  s <- getSetState ;;
  emit (CallAddTurn s pts) ;;
  (fun w => (snd (Engine.addTurn s pts),
             mkWorld (fst (Engine.addTurn s pts)) (ui w) (trace w))).

Definition removeLastTurn : M unit :=
  s <- getSetState ;;
  emit (CallRemoveLastTurn s) ;;
  (fun w => (tt, mkWorld (Engine.removeLastTurn s) (ui w) (trace w))).

Definition canStartNextLeg : M bool :=
  s <- getSetState ;;
  emit (CallCanStartNextLeg s) ;;
  ret (Engine.canStartNextLeg s).

Definition startNextLeg : M unit :=
  s <- getSetState ;;
  emit (CallStartNextLeg s) ;;
  (fun w => (tt, mkWorld (Engine.startNextLeg s) (ui w) (trace w))).

(** [ui.pointsInput.focus()] and [ui.pointsInput.select()]. *)
Definition focusPointsInput : M unit := emit DomFocusPointsInput.
Definition selectPointsInput : M unit := emit DomSelectPointsInput.

Section Main.

(** The two built-ins the adapter applies to the entered text:
    [String.prototype.trim] and the [Number] conversion. *)
Variable trim : string -> string.
Variable Number : string -> JsNumber.

(** main.ts, the four values the setup form's submit listener computes. *)
Definition setupValues (formData : FormData)
  : string * string * JsNumber * JsNumber :=
  (orDefault (formData_get formData "player1") (fun v => v) "Player 1",
   orDefault (formData_get formData "player2") (fun v => v) "Player 2",
   orDefault (formData_get formData "gameType") Number (JInt 501),
   orDefault (formData_get formData "maxLegs") Number (JInt 5)).

(** main.ts, the setup form's submit listener.  The engine is modelled on
    integers: a submission whose gameType or maxLegs is not an integer has no
    image ([None]). *)
Definition onSetupSubmit (formData : FormData) (w : World) : option World :=
  match setupValues formData with
  | (player1, player2, JInt gameTypeValue, JInt maxLegsValue) =>
      Some (exec (startNewSet player1 player2 gameTypeValue maxLegsValue ;;
                  renderAll ;;
                  showInfoMessage
                    "Set started. Enter points for the current player." ;;
                  focusPointsInput) w)
  | _ => None
  end.

(** main.ts, the click listener of the reset button. *)
Definition onResetClick : M unit :=
  resetSet ;;
  renderAll ;;
  showInfoMessage "All data cleared. Start a new set.".

(** main.ts, the click listener of the undo button. *)
Definition onUndoClick : M unit :=
  removeLastTurn ;;
  renderAll ;;
  showInfoMessage "Last turn removed.".

(** main.ts, the click listener of the new-leg button. *)
Definition onNewLegClick : M unit :=
  allowed <- canStartNextLeg ;;
  if negb allowed then ret tt
  else
    startNextLeg ;;
    renderAll ;;
    showInfoMessage "New leg started. Continue scoring." ;;
    focusPointsInput.

(** main.ts, [handleAddTurn]. *)
Definition handleAddTurn : M unit :=
  u <- getUi ;;
  let rawValue := trim (value (pointsInput u)) in
  if String.eqb rawValue "" then
    showWarningMessage "Please enter the points for this turn."
  else
    match Number rawValue with
    | JNonInteger =>
        showWarningMessage "Points must be an integer between 0 and 180."
    | JInt pts =>
        if (pts <? 0) || (pts >? 180) then
          showWarningMessage "Points must be an integer between 0 and 180."
        else
          result <- addTurn pts ;;
          match legFinished result, res_winner result with
          | true, Some win =>
              renderAll ;;
              let winnerName := name win in
              s <- getSetState ;;
              if isFinished s then
                showSuccessMessage
                  ("Leg won by " ++ winnerName ++
                   ". The set is finished. Overall winner: " ++
                   winnerName ++ ".")%string
              else
                showSuccessMessage
                  ("Leg won by " ++ winnerName ++
                   ". Start the next leg when ready.")%string
          | false, _ =>
              (if pts =? 0 then
                 showInfoMessage "No score this turn. Next player's turn."
               else
                 showInfoMessage "Turn recorded. Next player's turn.") ;;
              renderAll
          | true, None =>
              showWarningMessage
                "This score would make the remaining points negative."
          end ;;
          selectPointsInput
    end.

(** main.ts, the submit listener of the turn form. *)
Definition onTurnSubmit : M unit := handleAddTurn.

(** main.ts, the keydown listener of the points input. *)
Definition onPointsKeydown (key : string) : M unit :=
  if String.eqb key "Enter" then handleAddTurn else ret tt.

(** main.ts, [setupEventHandlers]: after registering the listeners it
    renders the initial state. *)
Definition setupEventHandlers : M unit := renderAll.

(** The user typing into the points input. *)
Definition typePoints (text : string) : M unit :=
  modifyUi (fun u =>
    set_pointsInput (mkInput text (input_disabled (pointsInput u))) u).

End Main.

(* ================================================================== *)
(** ** An instance of the built-ins, to run the handlers on concrete text *)

Module Ascii.
Import Stdlib.Strings.Ascii.

(** The ASCII white space and line terminators [trim] strips: tab, line feed,
    vertical tab, form feed, carriage return and space. *)
Definition isSpace (c : ascii) : bool :=
  let n := nat_of_ascii c in
  (Nat.leb 9 n && Nat.leb n 13) || Nat.eqb n 32.

Fixpoint trimStart (s : string) : string :=
  match s with
  | String c s' => if isSpace c then trimStart s' else s
  | EmptyString => EmptyString
  end.

Fixpoint trimEnd (s : string) : string :=
  match s with
  | String c s' =>
      match trimEnd s' with
      | EmptyString => if isSpace c then EmptyString else String c EmptyString
      | rest => String c rest
      end
  | EmptyString => EmptyString
  end.

Definition trim (s : string) : string := trimEnd (trimStart s).

Definition digitValue (c : ascii) : option Z :=
  let n := nat_of_ascii c in
  if Nat.leb 48 n && Nat.leb n 57 then Some (Z.of_nat (n - 48)) else None.

Fixpoint digits (acc : Z) (s : string) : option Z :=
  match s with
  | EmptyString => Some acc
  | String c s' =>
      match digitValue c with
      | Some d => digits (10 * acc + d) s'
      | None => None
      end
  end.

Definition unsigned (s : string) : JsNumber :=
  match s with
  | EmptyString => JNonInteger
  | _ => match digits 0 s with Some n => JInt n | None => JNonInteger end
  end.

(** [Number] on blanks around an optionally signed run of decimal digits;
    a text of blanks only is 0.  Other spellings of numbers (fractions,
    exponents, radix prefixes, Infinity) are not recognised by this
    instance; the theorems below hold for every instance. *)
Definition Number (s : string) : JsNumber :=
  match trim s with
  | EmptyString => JInt 0
  | String "+" s' => unsigned s'
  | String "-" s' =>
      match unsigned s' with JInt n => JInt (- n) | r => r end
  | String c s' => unsigned (String c s')
  end.

End Ascii.

(* ================================================================== *)
(** ** Sequences of engine operations *)

(** One call into the engine on the current leg. *)
Inductive Op :=
| OpAddTurn (pts : Z)
| OpRemoveLastTurn
| OpStartNextLeg.

Definition step (s : SetState) (op : Op) : SetState :=
  match op with
  | OpAddTurn pts => fst (Engine.addTurn s pts)
  | OpRemoveLastTurn => Engine.removeLastTurn s
  | OpStartNextLeg => Engine.startNextLeg s
  end.

Definition run (s : SetState) (ops : list Op) : SetState :=
  fold_left step ops s.

(** The bust rule on a turn history: after every prefix of the turns no
    player's points add up to more than the starting score [g], and no
    recorded running score is negative. *)
Definition withinScore (g : Z) (ts : list Turn) : Prop :=
  (forall k pid, Engine.pointsOf pid (firstn k ts) <= g) /\
  Forall (fun t => 0 <= runningScore t) ts.

Definition legWithinScore (s : SetState) : Prop :=
  match currentLeg s with
  | None => True
  | Some leg => startingScore leg = gameType s /\
                withinScore (gameType s) (turns leg)
  end.

(** A game of 501 in which player 1 busts at 40 left and then checks out. *)
Definition sampleOps : list Op :=
  [OpAddTurn 180; OpAddTurn 60; OpAddTurn 180; OpAddTurn 45; OpAddTurn 101;
   OpRemoveLastTurn; OpAddTurn 101; OpAddTurn 0; OpAddTurn 45; OpAddTurn 40].

Definition sampleLeg : LegState :=
  mkLeg 1 501
    [mkTurn 1 180 321; mkTurn 2 60 441; mkTurn 1 180 141; mkTurn 2 45 396;
     mkTurn 1 101 40; mkTurn 2 0 396; mkTurn 1 40 0]
    true (Some 1).

(* ================================================================== *)
(** ** What a render leaves on the page *)

(** The row [renderPlayersTable] builds for one player. *)
Definition playerRow (leg : LegState) (p : Player) : Row :=
  [name p; String_ (legsWon p);
   String_ (Engine.getRemainingScoreForPlayer leg (id p))].

(** The row [renderTurnsTable] builds for the turn at position [index]. *)
Definition turnRow (s : SetState) (turn : Turn) (index : Z) : Row :=
  [String_ (index + 1);
   match find (fun p => id p =? playerId turn) (players s) with
   | Some p => name p
   | None => "?"
   end;
   String_ (points turn);
   String_ (runningScore turn)].

Fixpoint turnRowsFrom (s : SetState) (index : Z) (ts : list Turn)
  : list Row :=
  match ts with
  | [] => []
  | t :: ts' => turnRow s t index :: turnRowsFrom s (index + 1) ts'
  end.

Definition playersRows (s : SetState) : list Row :=
  match currentLeg s with
  | None => []
  | Some leg => map (playerRow leg) (players s)
  end.

Definition turnsRows (s : SetState) : list Row :=
  match currentLeg s with
  | None => []
  | Some leg => turnRowsFrom s 0 (turns leg)
  end.

(** Whether [renderStatus] asks the engine for the current player's name. *)
Definition asksCurrentPlayer (s : SetState) : bool :=
  match currentLeg s with
  | None => false
  | Some _ => negb (isFinished s)
  end.

Definition statusEvents (s : SetState) : list Event :=
  if asksCurrentPlayer s then [CallGetCurrentPlayerName s] else [].

Definition playersEvents (s : SetState) : list Event :=
  match currentLeg s with
  | None => []
  | Some leg =>
      map (fun p => CallGetRemainingScoreForPlayer leg (id p)) (players s)
  end.

(** The four status texts [renderStatus] writes. *)
Definition statusGameText (s : SetState) : string :=
  match currentLeg s with
  | None => "–"
  | Some _ => (String_ (gameType s) ++ " down")%string
  end.

Definition statusMaxLegsText (s : SetState) : string :=
  match currentLeg s with
  | None => "–"
  | Some _ => ("Best of " ++ String_ (maxLegs s))%string
  end.

Definition statusLegNumberText (s : SetState) : string :=
  match currentLeg s with
  | None => "–"
  | Some leg => String_ (legNumber leg)
  end.

Definition statusCurrentPlayerText (s : SetState) : string :=
  match currentLeg s with
  | None => "–"
  | Some _ =>
      if isFinished s then "Set finished" else Engine.getCurrentPlayerName s
  end.

Definition statusUi (s : SetState) (u : UiElements) : UiElements :=
  mkUi (message u)
       (statusGameText s) (statusMaxLegsText s) (statusLegNumberText s)
       (statusCurrentPlayerText s)
       (playersTableBody u) (turnsTableBody u)
       (addTurnButton u) (undoTurnButton u) (newLegButton u)
       (pointsInput u).

(** The disabled flag [renderButtons] gives the add-turn button: no current
    leg, or the set finished, or the current leg finished. *)
Definition turnEntryDisabled (s : SetState) : bool :=
  match currentLeg s with
  | None => true
  | Some leg => isFinished s || leg_isFinished leg
  end.

Definition undoDisabled (s : SetState) : bool :=
  match currentLeg s with
  | None => true
  | Some leg =>
      isFinished s || leg_isFinished leg ||
      Nat.eqb (List.length (turns leg)) 0
  end.

Definition newLegDisabled (s : SetState) : bool :=
  match currentLeg s with
  | None => true
  | Some leg => isFinished s || negb (leg_isFinished leg)
  end.

Definition buttonsUi (s : SetState) (u : UiElements) : UiElements :=
  mkUi (message u) (statusGame u) (statusMaxLegs u) (statusLegNumber u)
       (statusCurrentPlayer u) (playersTableBody u) (turnsTableBody u)
       (turnEntryDisabled s) (undoDisabled s) (newLegDisabled s)
       (mkInput (value (pointsInput u)) (turnEntryDisabled s)).

Definition renderedUi (s : SetState) (u : UiElements) : UiElements :=
  buttonsUi s
    (set_turnsTableBody (turnsRows s)
       (set_playersTableBody (playersRows s) (statusUi s u))).

(** The text [handleAddTurn] validates: the trimmed value of the points
    input. *)
Definition rawValue (trim : string -> string) (w : World) : string :=
  trim (value (pointsInput (ui w))).

(** What [handleAddTurn] does after [addTurn] returned [result]. *)
Definition afterAddTurn (pts : Z) (result : AddTurnResult) : M unit :=
  match legFinished result, res_winner result with
  | true, Some win =>
      renderAll ;;
      s <- getSetState ;;
      if isFinished s then
        showSuccessMessage
          ("Leg won by " ++ name win ++
           ". The set is finished. Overall winner: " ++ name win ++ ".")%string
      else
        showSuccessMessage
          ("Leg won by " ++ name win ++
           ". Start the next leg when ready.")%string
  | false, _ =>
      (if pts =? 0 then
         showInfoMessage "No score this turn. Next player's turn."
       else
         showInfoMessage "Turn recorded. Next player's turn.") ;;
      renderAll
  | true, None =>
      showWarningMessage
        "This score would make the remaining points negative."
  end.

(** The events a handler run adds to the history. *)
Definition eventsOf {A : Type} (m : M A) (w : World) : list Event :=
  skipn (List.length (trace w)) (trace (exec m w)).

(** The renderers only ask the engine's two queries. *)
Definition isQuery (e : Event) : bool :=
  match e with
  | CallGetRemainingScoreForPlayer _ _ | CallGetCurrentPlayerName _ => true
  | _ => false
  end.

Definition isAddTurnCall (e : Event) : bool :=
  match e with CallAddTurn _ _ => true | _ => false end.

Definition isStartNewSetCall (e : Event) : bool :=
  match e with CallStartNewSet _ _ _ _ => true | _ => false end.

Definition isStartNextLegCall (e : Event) : bool :=
  match e with CallStartNextLeg _ => true | _ => false end.

(** The three styling classes of the message element. *)
Definition hasClass (c : string) (m : MessageElement) : bool :=
  existsb (String.eqb c) (classList m).

(* ================================================================== *)
(** ** A session on an empty page *)

Definition blankUi : UiElements :=
  mkUi (mkMessage "" []) "" "" "" "" [] [] false false false
       (mkInput "" false).

Definition pageLoaded : World :=
  exec setupEventHandlers (mkWorld Engine.createEmptySet blankUi []).

(** The user enters [text] in the points input and submits the turn form. *)
Definition enterTurn (w : World) (text : string) : World :=
  exec (typePoints text ;; onTurnSubmit Ascii.trim Ascii.Number) w.

(** A set of best of 5 at 501 with the default names has been started. *)
Definition setStarted : World :=
  match onSetupSubmit Ascii.Number
          [("player1", ""); ("player2", ""); ("gameType", "501");
           ("maxLegs", "5")] pageLoaded with
  | Some w => w
  | None => pageLoaded
  end.

(** Player 1 has 40 left and it is their turn. *)
Definition fortyLeft : World :=
  fold_left enterTurn ["180"; "0"; "180"; "0"; "101"; "0"] setStarted.

(** Player 1 has checked out the first leg: the leg is won, the set goes
    on. *)
Definition legWon : World := enterTurn fortyLeft "40".

(** The points input holds the given text and the turn has not been
    submitted yet. *)
Definition typed (w : World) (text : string) : World :=
  exec (typePoints text) w.

(** A submitted setup form that leaves every field empty but maxLegs. *)
Definition bestOfThreeForm : FormData :=
  [("player1", ""); ("player2", ""); ("maxLegs", "3")].

(* ================================================================== *)
(** ** Sessions: the page under a sequence of user actions *)

(** The page shows the set state: it is what [renderAll] leaves for it. *)
Definition inSync (w : World) : Prop :=
  ui w = renderedUi (setState w) (ui w).

(** What the user can do on the page; each action runs one listener of
    main.ts. *)
Inductive UserAction :=
| SubmitSetup (formData : FormData)
| ClickReset
| ClickUndo
| ClickNewLeg
| TypePoints (text : string)
| SubmitTurn
| PressKey (key : string).

Definition perform (trim : string -> string) (Number : string -> JsNumber)
    (w : World) (a : UserAction) : option World :=
  match a with
  | SubmitSetup formData => onSetupSubmit Number formData w
  | ClickReset => Some (exec onResetClick w)
  | ClickUndo => Some (exec onUndoClick w)
  | ClickNewLeg => Some (exec onNewLegClick w)
  | TypePoints text => Some (exec (typePoints text) w)
  | SubmitTurn => Some (exec (onTurnSubmit trim Number) w)
  | PressKey key => Some (exec (onPointsKeydown trim Number key) w)
  end.

Fixpoint performAll (trim : string -> string) (Number : string -> JsNumber)
    (w : World) (actions : list UserAction) : option World :=
  match actions with
  | [] => Some w
  | a :: rest =>
      match perform trim Number w a with
      | Some w' => performAll trim Number w' rest
      | None => None
      end
  end.

(** The window's load listener runs [setupEventHandlers] on the page as it
    is; the user's actions follow. *)
Definition session (trim : string -> string) (Number : string -> JsNumber)
    (w0 : World) (actions : list UserAction) : option World :=
  performAll trim Number (exec setupEventHandlers w0) actions.

(** The events of one render of the set state [s]. *)
Definition renderEvents (s : SetState) : list Event :=
  statusEvents s ++ playersEvents s.

(** Ann has thrown 100 and Bo 60 in the first leg of a set at 501. *)
Definition midLegTurns : LegState :=
  mkLeg 1 501 [mkTurn 1 100 401; mkTurn 2 60 441] false None.

Definition midLeg : World :=
  mkWorld
    (mkSet 501 5 [mkPlayer 1 "Ann" 0; mkPlayer 2 "Bo" 0]
           (Some midLegTurns) false None)
    blankUi [].

(** Ann has checked out the first leg; the set is not finished. *)
Definition wonLeg : World :=
  mkWorld
    (mkSet 501 5 [mkPlayer 1 "Ann" 1; mkPlayer 2 "Bo" 0]
           (Some (mkLeg 1 501
                    [mkTurn 1 180 321; mkTurn 2 60 441; mkTurn 1 180 141;
                     mkTurn 2 60 381; mkTurn 1 141 0]
                    true (Some 1)))
           false None)
    blankUi [].

(** A call into the engine that respects what the adapter checks before
    it: addTurn receives an integer from 0 to 180, and startNextLeg a set
    state of which canStartNextLeg holds. *)
Definition checkedCall (e : Event) : Prop :=
  match e with
  | CallAddTurn _ pts => 0 <= pts <= 180
  | CallStartNextLeg s => Engine.canStartNextLeg s = true
  | _ => True
  end.

(** The history of [w'] continues the history of [w] with checked calls. *)
Definition continues (w w' : World) : Prop :=
  exists es, trace w' = trace w ++ es /\ Forall checkedCall es.

(** Ann has 141 left and has typed 141. *)
Definition checkoutTyped : World :=
  mkWorld
    (mkSet 501 5 [mkPlayer 1 "Ann" 0; mkPlayer 2 "Bo" 0]
           (Some (mkLeg 1 501
                    [mkTurn 1 180 321; mkTurn 2 60 441; mkTurn 1 180 141;
                     mkTurn 2 60 381]
                    false None))
           false None)
    (set_pointsInput (mkInput "141" false) blankUi) [].

(** In the middle of the first leg, 45 has been typed. *)
Definition midLegTyped : World :=
  mkWorld (setState midLeg) (set_pointsInput (mkInput "45" false) blankUi) [].

(** A leg whose only turn carries a player id that no player has. *)
Definition strangerTurn : World :=
  mkWorld
    (mkSet 501 5 [mkPlayer 1 "Ann" 0; mkPlayer 2 "Bo" 0]
           (Some (mkLeg 1 501 [mkTurn 7 20 481] false None)) false None)
    blankUi [].

(** A setup form with a name of two spaces. *)
Definition spacedNamesForm : FormData :=
  [("player1", "  "); ("player2", "Bo"); ("gameType", "301");
   ("maxLegs", "3")].

(** A short session: a set is started, two turns are entered, the second is
    undone, and Escape is pressed in the points input. *)
Definition sampleActions : list UserAction :=
  [SubmitSetup spacedNamesForm; TypePoints "180"; SubmitTurn;
   TypePoints "x"; SubmitTurn; TypePoints "60"; PressKey "Enter";
   ClickUndo; ClickNewLeg; PressKey "Escape"].

(** The world the sample session ends in. *)
Definition sampleSessionEnd : World :=
  match session Ascii.trim Ascii.Number
          (mkWorld Engine.createEmptySet blankUi []) sampleActions with
  | Some w => w
  | None => pageLoaded
  end.

(* ================================================================== *)
(** ** The renderers in closed form *)

Ltac run_world :=
  unfold exec, bind, ret, getSetState, getUi, modifyUi, emit; simpl.

Lemma exec_bind {A B : Type} (m : M A) (k : A -> M B) (w : World) :
  exec (bind m k) w = exec (k (fst (m w))) (exec m w).
Proof. reflexivity. Qed.

Lemma forOf_players_exec (leg : LegState) (ps : list Player) (w : World) :
  exec (forOf ps (fun player =>
          remaining <- getRemainingScoreForPlayer leg (id player) ;;
          appendPlayersRow
            [name player; String_ (legsWon player); String_ remaining])) w
  = mkWorld (setState w)
      (set_playersTableBody
         (playersTableBody (ui w) ++ map (playerRow leg) ps) (ui w))
      (trace w ++
       map (fun p => CallGetRemainingScoreForPlayer leg (id p)) ps).
Proof.
  revert w. induction ps as [|p ps IH]; intros [s u t].
  - run_world. rewrite !app_nil_r. destruct u; reflexivity.
  - change (exec (forOf (p :: ps) ?body) ?w)
      with (exec (forOf ps body) (exec (body p) w)).
    rewrite IH. unfold getRemainingScoreForPlayer, appendPlayersRow.
    run_world. unfold set_playersTableBody; simpl.
    rewrite <- !app_assoc. reflexivity.
Qed.

Lemma forEachFrom_turns_exec (s0 : SetState) (ts : list Turn) :
  forall (index : Z) (w : World),
  exec (forEachFrom index ts (fun turn index =>
          let player := find (fun p => id p =? playerId turn) (players s0) in
          appendTurnsRow
            [String_ (index + 1);
             match player with Some p => name p | None => "?" end;
             String_ (points turn);
             String_ (runningScore turn)])) w
  = mkWorld (setState w)
      (set_turnsTableBody
         (turnsTableBody (ui w) ++ turnRowsFrom s0 index ts) (ui w))
      (trace w).
Proof.
  induction ts as [|t ts IH]; intros index [s u tr].
  - run_world. rewrite app_nil_r. destruct u; reflexivity.
  - change (exec (forEachFrom index (t :: ts) ?body) ?w)
      with (exec (forEachFrom (index + 1) ts body) (exec (body t index) w)).
    rewrite IH. unfold appendTurnsRow.
    run_world. unfold set_turnsTableBody; simpl.
    rewrite <- !app_assoc. reflexivity.
Qed.

Lemma renderStatus_exec (w : World) :
  exec renderStatus w
  = mkWorld (setState w) (statusUi (setState w) (ui w))
            (trace w ++ statusEvents (setState w)).
Proof.
  destruct w as [s u t].
  unfold renderStatus, statusUi, statusGameText, statusMaxLegsText,
    statusLegNumberText, statusCurrentPlayerText, statusEvents,
    asksCurrentPlayer, getCurrentPlayerName.
  run_world.
  destruct (currentLeg s) as [leg|]; simpl.
  - destruct (isFinished s); simpl; rewrite ?app_nil_r; reflexivity.
  - rewrite app_nil_r; reflexivity.
Qed.

Lemma renderPlayersTable_exec (w : World) :
  exec renderPlayersTable w
  = mkWorld (setState w)
            (set_playersTableBody (playersRows (setState w)) (ui w))
            (trace w ++ playersEvents (setState w)).
Proof.
  destruct w as [s u t].
  unfold renderPlayersTable, playersRows, playersEvents.
  rewrite !exec_bind. simpl fst.
  change (exec getSetState (mkWorld s u t)) with (mkWorld s u t).
  simpl currentLeg.
  destruct (currentLeg s) as [leg|].
  - rewrite forOf_players_exec. run_world. reflexivity.
  - run_world. rewrite app_nil_r. reflexivity.
Qed.

Lemma renderTurnsTable_exec (w : World) :
  exec renderTurnsTable w
  = mkWorld (setState w)
            (set_turnsTableBody (turnsRows (setState w)) (ui w))
            (trace w).
Proof.
  destruct w as [s u t].
  unfold renderTurnsTable, turnsRows, forEach.
  rewrite !exec_bind. simpl fst.
  change (exec getSetState (mkWorld s u t)) with (mkWorld s u t).
  simpl currentLeg.
  destruct (currentLeg s) as [leg|].
  - rewrite forEachFrom_turns_exec. run_world. reflexivity.
  - run_world. reflexivity.
Qed.

Lemma renderButtons_exec (w : World) :
  exec renderButtons w
  = mkWorld (setState w) (buttonsUi (setState w) (ui w)) (trace w).
Proof.
  destruct w as [s u t].
  unfold renderButtons, buttonsUi, turnEntryDisabled, undoDisabled,
    newLegDisabled.
  run_world.
  destruct (currentLeg s) as [leg|]; simpl; reflexivity.
Qed.

Lemma renderAll_exec (w : World) :
  exec renderAll w
  = mkWorld (setState w) (renderedUi (setState w) (ui w))
            (trace w ++ statusEvents (setState w)
                     ++ playersEvents (setState w)).
Proof.
  unfold renderAll. rewrite !exec_bind.
  rewrite renderStatus_exec, renderPlayersTable_exec,
    renderTurnsTable_exec, renderButtons_exec.
  simpl. rewrite <- app_assoc. reflexivity.
Qed.

Lemma renderedUi_idem (s : SetState) (u : UiElements) :
  renderedUi s (renderedUi s u) = renderedUi s u.
Proof. reflexivity. Qed.

Lemma eventsOf_extend {A : Type} (m : M A) (w : World) (es : list Event) :
  trace (exec m w) = trace w ++ es -> eventsOf m w = es.
Proof.
  intros H. unfold eventsOf. rewrite H.
  rewrite skipn_app, skipn_all, Nat.sub_diag. reflexivity.
Qed.

Lemma renderEvents_queries (s : SetState) :
  forallb isQuery (statusEvents s ++ playersEvents s) = true.
Proof.
  rewrite forallb_app. apply andb_true_intro. split.
  - unfold statusEvents. destruct (asksCurrentPlayer s); reflexivity.
  - unfold playersEvents. destruct (currentLeg s) as [leg|]; [|reflexivity].
    induction (players s) as [|p ps IH]; [reflexivity|exact IH].
Qed.

(* ================================================================== *)
(** ** The message element *)

Lemma existsb_classList_add_same (c : string) (cl : list string) :
  existsb (String.eqb c) (classList_add c cl) = true.
Proof.
  unfold classList_add.
  destruct (existsb (String.eqb c) cl) eqn:E; [exact E|].
  rewrite existsb_app. simpl. rewrite String.eqb_refl.
  rewrite orb_true_r. reflexivity.
Qed.

Lemma existsb_classList_add_other (c d : string) (cl : list string) :
  String.eqb c d = false ->
  existsb (String.eqb c) (classList_add d cl) = existsb (String.eqb c) cl.
Proof.
  intros N. unfold classList_add.
  destruct (existsb (String.eqb d) cl); [reflexivity|].
  rewrite existsb_app. simpl. rewrite N, !orb_false_r. reflexivity.
Qed.

Lemma existsb_classList_remove (c : string) (tokens cl : list string) :
  existsb (String.eqb c) tokens = true ->
  existsb (String.eqb c) (classList_remove tokens cl) = false.
Proof.
  intros T. unfold classList_remove.
  induction cl as [|x cl IH]; [reflexivity|].
  simpl. destruct (existsb (String.eqb x) tokens) eqn:X; simpl.
  - exact IH.
  - rewrite IH, orb_false_r.
    destruct (String.eqb c x) eqn:CX; [|reflexivity].
    apply String.eqb_eq in CX. subst x. congruence.
Qed.

Lemma showInfoMessage_exec (text : string) (w : World) :
  exec (showInfoMessage text) w
  = mkWorld (setState w)
      (set_message
         (mkMessage text
            (classList_add "message--info"
               (classList_remove ["message--warning"; "message--success"]
                  (classList (message (ui w)))))) (ui w))
      (trace w).
Proof. reflexivity. Qed.

Lemma showWarningMessage_exec (text : string) (w : World) :
  exec (showWarningMessage text) w
  = mkWorld (setState w)
      (set_message
         (mkMessage text
            (classList_add "message--warning"
               (classList_remove ["message--info"; "message--success"]
                  (classList (message (ui w)))))) (ui w))
      (trace w).
Proof. reflexivity. Qed.

Lemma showSuccessMessage_exec (text : string) (w : World) :
  exec (showSuccessMessage text) w
  = mkWorld (setState w)
      (set_message
         (mkMessage text
            (classList_add "message--success"
               (classList_remove ["message--info"; "message--warning"]
                  (classList (message (ui w)))))) (ui w))
      (trace w).
Proof. reflexivity. Qed.

(** C9.  After showInfoMessage, showWarningMessage or showSuccessMessage the
    message element's text is the given text and, of the three styling
    classes message--info, message--warning and message--success, the
    element carries the one of the call and neither of the two others,
    whatever its class list held before. *)
Theorem showMessage_text_and_class (text : string) (w : World) :
  let shown := fun (m : M unit) => message (ui (exec m w)) in
  (textContent (shown (showInfoMessage text)) = text /\
   hasClass "message--info" (shown (showInfoMessage text)) = true /\
   hasClass "message--warning" (shown (showInfoMessage text)) = false /\
   hasClass "message--success" (shown (showInfoMessage text)) = false) /\
  (textContent (shown (showWarningMessage text)) = text /\
   hasClass "message--warning" (shown (showWarningMessage text)) = true /\
   hasClass "message--info" (shown (showWarningMessage text)) = false /\
   hasClass "message--success" (shown (showWarningMessage text)) = false) /\
  (textContent (shown (showSuccessMessage text)) = text /\
   hasClass "message--success" (shown (showSuccessMessage text)) = true /\
   hasClass "message--info" (shown (showSuccessMessage text)) = false /\
   hasClass "message--warning" (shown (showSuccessMessage text)) = false).
Proof.
  cbv beta zeta.
  rewrite showInfoMessage_exec, showWarningMessage_exec,
    showSuccessMessage_exec.
  unfold hasClass, set_message.
  cbn [ui message classList textContent].
  repeat split;
    first [ apply existsb_classList_add_same
          | rewrite existsb_classList_add_other by reflexivity;
            apply existsb_classList_remove; reflexivity ].
Qed.

(* ================================================================== *)
(** ** Rendering *)

(** C8.  Rendering never mutates game state: after renderAll, renderStatus,
    renderPlayersTable, renderTurnsTable or renderButtons, and after the
    queries getRemainingScoreForPlayer and getCurrentPlayerName they call,
    the set state (with its players, its current leg and its turns) is the
    one before the call. *)
Theorem rendering_preserves_setState (w : World) :
  setState (exec renderAll w) = setState w /\
  setState (exec renderStatus w) = setState w /\
  setState (exec renderPlayersTable w) = setState w /\
  setState (exec renderTurnsTable w) = setState w /\
  setState (exec renderButtons w) = setState w /\
  (forall leg pid,
     setState (exec (getRemainingScoreForPlayer leg pid) w) = setState w) /\
  setState (exec getCurrentPlayerName w) = setState w.
Proof.
  rewrite renderAll_exec, renderStatus_exec, renderPlayersTable_exec,
    renderTurnsTable_exec, renderButtons_exec.
  repeat split.
Qed.

(** C10.  Rendering is idempotent: renderPlayersTable and renderTurnsTable
    clear their table body before appending rows, and rendering twice in
    succession leaves the same page (status texts, table rows, disabled
    flags) as rendering once. *)
Theorem renderAll_idempotent (w : World) :
  ui (exec renderAll (exec renderAll w)) = ui (exec renderAll w) /\
  ui (exec renderPlayersTable (exec renderPlayersTable w))
    = ui (exec renderPlayersTable w) /\
  ui (exec renderTurnsTable (exec renderTurnsTable w))
    = ui (exec renderTurnsTable w).
Proof.
  rewrite !renderAll_exec, !renderPlayersTable_exec, !renderTurnsTable_exec.
  simpl. rewrite renderedUi_idem. repeat split.
Qed.

(** C5.  After renderButtons the add-turn button and the points input are
    disabled exactly when the set has no current leg, or the set is
    finished, or the current leg is finished: turn entry is enabled exactly
    when addTurn's state preconditions hold. *)
Theorem renderButtons_turn_entry (w : World) :
  let s := setState w in
  let u := ui (exec renderButtons w) in
  addTurnButton u = turnEntryDisabled s /\
  input_disabled (pointsInput u) = turnEntryDisabled s /\
  turnEntryDisabled s = negb (Engine.addTurnReady s).
Proof.
  cbv zeta. rewrite renderButtons_exec. simpl.
  repeat split.
  unfold turnEntryDisabled, Engine.addTurnReady.
  destruct (currentLeg (setState w)) as [leg|]; [|reflexivity].
  destruct (isFinished (setState w)), (leg_isFinished leg); reflexivity.
Qed.

(** What renderStatus asks the engine: getCurrentPlayerName, once, exactly
    when a current leg exists and the set is not finished; whether the
    current leg is finished is not tested. *)
Theorem renderStatus_asks_current_player (w : World) :
  let s := setState w in
  eventsOf renderStatus w =
    match currentLeg s with
    | Some _ => if isFinished s then [] else [CallGetCurrentPlayerName s]
    | None => []
    end.
Proof.
  cbv zeta. apply eventsOf_extend. rewrite renderStatus_exec. simpl.
  unfold statusEvents, asksCurrentPlayer.
  destruct (currentLeg (setState w)); [|reflexivity].
  destruct (isFinished (setState w)); reflexivity.
Qed.

(** Once player 1 has checked out the first leg of a best-of-5 set, the
    status line is rendered with a current leg present and the set not
    finished, getCurrentPlayerName is invoked, and the current leg is
    finished. *)
Lemma renderStatus_asks_on_finished_leg :
  exists leg,
    currentLeg (setState legWon) = Some leg /\
    isFinished (setState legWon) = false /\
    eventsOf renderStatus legWon
      = [CallGetCurrentPlayerName (setState legWon)] /\
    leg_isFinished leg = true.
Proof.
  vm_compute. eexists. repeat split.
Qed.

(* ================================================================== *)
(** ** The bust rule over sequences of engine operations *)

Lemma pointsOf_app (pid : Z) (a b : list Turn) :
  Engine.pointsOf pid (a ++ b) = Engine.pointsOf pid a + Engine.pointsOf pid b.
Proof.
  induction a as [|t a IH]; simpl; [reflexivity|]. rewrite IH. lia.
Qed.

Lemma withinScore_nil (g : Z) : 0 <= g -> withinScore g [].
Proof.
  intros Hg. split.
  - intros k pid. rewrite firstn_nil. exact Hg.
  - constructor.
Qed.

Lemma withinScore_snoc (g : Z) (ts : list Turn) (t : Turn) :
  withinScore g ts ->
  Engine.pointsOf (playerId t) ts + points t <= g ->
  0 <= runningScore t ->
  withinScore g (ts ++ [t]).
Proof.
  intros [Hsum Hrun] Ht Hr. split.
  - intros k pid. rewrite firstn_app.
    destruct (Nat.leb k (List.length ts)) eqn:K.
    + apply Nat.leb_le in K.
      replace (k - List.length ts)%nat with 0%nat by lia.
      rewrite firstn_O, app_nil_r. apply Hsum.
    + apply Nat.leb_gt in K.
      rewrite firstn_all2 by lia.
      destruct (k - List.length ts)%nat as [|j] eqn:J; [lia|].
      simpl firstn. rewrite firstn_nil, pointsOf_app. simpl.
      specialize (Hsum (List.length ts) pid). rewrite firstn_all in Hsum.
      destruct (playerId t =? pid) eqn:E.
      * apply Z.eqb_eq in E. subst pid. lia.
      * lia.
  - apply Forall_app. split; [exact Hrun|]. constructor; [exact Hr|constructor].
Qed.

Lemma withinScore_removelast (g : Z) (ts : list Turn) :
  withinScore g ts -> withinScore g (removelast ts).
Proof.
  intros [Hsum Hrun]. rewrite removelast_firstn_len. split.
  - intros k pid. rewrite firstn_firstn. apply Hsum.
  - apply Forall_forall. intros t Ht.
    rewrite Forall_forall in Hrun. apply Hrun.
    rewrite <- (firstn_skipn (Init.Nat.pred (List.length ts)) ts).
    apply in_or_app. left. exact Ht.
Qed.

Lemma addTurn_within (s : SetState) (pts : Z) :
  legWithinScore s ->
  gameType (fst (Engine.addTurn s pts)) = gameType s /\
  legWithinScore (fst (Engine.addTurn s pts)).
Proof.
  unfold legWithinScore, Engine.addTurn. intros H.
  destruct (currentLeg s) as [leg|] eqn:L; simpl;
    [|rewrite L; split; [reflexivity|exact I]].
  destruct (leg_isFinished leg || isFinished s); simpl;
    [rewrite L; split; [reflexivity|exact H]|].
  destruct (Engine.currentPlayer s leg) as [p|]; simpl;
    [|rewrite L; split; [reflexivity|exact H]].
  unfold Engine.getRemainingScoreForPlayer.
  destruct H as [Hstart Hw].
  destruct (startingScore leg - Engine.pointsOf (id p) (turns leg) - pts <? 0)
    eqn:B; simpl; [rewrite L; split; [reflexivity|split; assumption]|].
  apply Z.ltb_ge in B.
  assert (W : withinScore (gameType s)
                (turns leg ++
                 [mkTurn (id p) pts
                    (startingScore leg - Engine.pointsOf (id p) (turns leg)
                     - pts)])).
  { apply withinScore_snoc; simpl; [exact Hw|lia|lia]. }
  destruct (startingScore leg - Engine.pointsOf (id p) (turns leg) - pts =? 0);
    simpl; (split; [reflexivity|split; [exact Hstart|exact W]]).
Qed.

Lemma removeLastTurn_within (s : SetState) :
  legWithinScore s ->
  gameType (Engine.removeLastTurn s) = gameType s /\
  legWithinScore (Engine.removeLastTurn s).
Proof.
  unfold legWithinScore, Engine.removeLastTurn. intros H.
  destruct (currentLeg s) as [leg|] eqn:L;
    [|rewrite L; split; [reflexivity|exact I]].
  destruct (leg_isFinished leg || isFinished s);
    [rewrite L; split; [reflexivity|exact H]|].
  destruct (turns leg) as [|t ts] eqn:T;
    [rewrite L, T; split; [reflexivity|exact H]|].
  destruct H as [Hstart Hw]. simpl.
  split; [reflexivity|split; [exact Hstart|]].
  apply (withinScore_removelast _ (t :: ts)). exact Hw.
Qed.

Lemma startNextLeg_within (s : SetState) :
  0 <= gameType s ->
  legWithinScore s ->
  gameType (Engine.startNextLeg s) = gameType s /\
  legWithinScore (Engine.startNextLeg s).
Proof.
  unfold legWithinScore, Engine.startNextLeg. intros Hg H.
  destruct (currentLeg s) as [leg|] eqn:L;
    [|rewrite L; split; [reflexivity|exact I]].
  destruct (Engine.canStartNextLeg s);
    [|rewrite L; split; [reflexivity|exact H]].
  simpl. split; [reflexivity|split; [reflexivity|]].
  apply withinScore_nil. exact Hg.
Qed.

Lemma run_within (ops : list Op) :
  forall s, 0 <= gameType s -> legWithinScore s ->
  gameType (run s ops) = gameType s /\ legWithinScore (run s ops).
Proof.
  induction ops as [|op ops IH]; intros s Hg H; [split; [reflexivity|exact H]|].
  assert (S : gameType (step s op) = gameType s /\ legWithinScore (step s op)).
  { destruct op; simpl.
    - apply addTurn_within; exact H.
    - apply removeLastTurn_within; exact H.
    - apply startNextLeg_within; assumption. }
  destruct S as [Sg Sw].
  destruct (IH (step s op)) as [Rg Rw]; [lia|exact Sw|].
  simpl. split; [lia|exact Rw].
Qed.

(** C2.  From a freshly started set and through every sequence of engine
    operations on it (turns of any points, undo, next leg), the points of
    any player in the current leg never add up to more than gameType, and
    every recorded Turn has 0 <= runningScore. *)
Theorem bust_rule_holds (player1 player2 : string) (g m : Z) (ops : list Op)
    (leg : LegState)
    (Hg : 0 <= g)
    (Hleg : currentLeg (run (Engine.startNewSet player1 player2 g m) ops)
            = Some leg) :
  (forall pid, Engine.pointsOf pid (turns leg) <= g) /\
  (forall pid, 0 <= Engine.getRemainingScoreForPlayer leg pid) /\
  Forall (fun t => 0 <= runningScore t) (turns leg).
Proof.
  destruct (run_within ops (Engine.startNewSet player1 player2 g m))
    as [Rg Rw].
  - exact Hg.
  - simpl. split; [reflexivity|]. apply withinScore_nil. exact Hg.
  - unfold legWithinScore in Rw. rewrite Hleg, Rg in Rw. simpl in Rw.
    destruct Rw as [Hstart [Hsum Hrun]].
    assert (S : forall pid, Engine.pointsOf pid (turns leg) <= g).
    { intros pid. specialize (Hsum (List.length (turns leg)) pid).
      rewrite firstn_all in Hsum. exact Hsum. }
    split; [exact S|]. split; [|exact Hrun].
    intros pid. unfold Engine.getRemainingScoreForPlayer.
    specialize (S pid). lia.
Qed.

Lemma bust_rule_holds_sample :
  (forall pid, Engine.pointsOf pid (turns sampleLeg) <= 501) /\
  (forall pid, 0 <= Engine.getRemainingScoreForPlayer sampleLeg pid) /\
  Forall (fun t => 0 <= runningScore t) (turns sampleLeg).
Proof.
  apply (bust_rule_holds "Player 1" "Player 2" 501 5 sampleOps sampleLeg).
  - lia.
  - reflexivity.
Defined.

(* ================================================================== *)
(** ** The handlers of main.ts *)

Lemma forallb_weaken {A : Type} (p q : A -> bool) (l : list A) :
  (forall x, p x = true -> q x = true) ->
  forallb p l = true -> forallb q l = true.
Proof.
  intros PQ. induction l as [|x l IH]; simpl; [reflexivity|].
  intros H. apply andb_prop in H. destruct H as [Hx Hl].
  rewrite (PQ x Hx), (IH Hl). reflexivity.
Qed.

Lemma renderEvents_no_addTurn (s : SetState) :
  forallb (fun e => negb (isAddTurnCall e))
          (statusEvents s ++ playersEvents s) = true.
Proof.
  apply (forallb_weaken isQuery); [|apply renderEvents_queries].
  intros [] H; try discriminate H; reflexivity.
Qed.

Lemma renderEvents_no_startNextLeg (s : SetState) :
  existsb isStartNextLegCall (statusEvents s ++ playersEvents s) = false.
Proof.
  pose proof (renderEvents_queries s) as Q.
  induction (statusEvents s ++ playersEvents s) as [|e es IH];
    [reflexivity|].
  simpl in Q. apply andb_prop in Q. destruct Q as [Qe Qs].
  simpl. rewrite (IH Qs). destruct e; try discriminate Qe; reflexivity.
Qed.

Lemma addTurn_exec (pts : Z) (w : World) :
  exec (addTurn pts) w
  = mkWorld (fst (Engine.addTurn (setState w) pts)) (ui w)
            (trace w ++ [CallAddTurn (setState w) pts]).
Proof. reflexivity. Qed.

Lemma addTurn_result (pts : Z) (w : World) :
  fst (addTurn pts w) = snd (Engine.addTurn (setState w) pts).
Proof. reflexivity. Qed.

(** A bust leaves the set as it is and reports no leg finish and no
    winner. *)
Lemma addTurn_bust (s : SetState) (pts : Z) :
  Engine.isBust s pts = true -> Engine.addTurn s pts = (s, Engine.noFinish).
Proof.
  unfold Engine.isBust, Engine.addTurn, Engine.addTurnReady.
  destruct (currentLeg s) as [leg|]; [|discriminate].
  destruct (leg_isFinished leg), (isFinished s); simpl; try discriminate.
  destruct (Engine.currentPlayer s leg) as [p|]; [|discriminate].
  intros B. rewrite B. reflexivity.
Qed.

Lemma showWarningMessage_shown (text : string) (w : World) :
  textContent (message (ui (exec (showWarningMessage text) w))) = text /\
  hasClass "message--warning"
    (message (ui (exec (showWarningMessage text) w))) = true.
Proof.
  rewrite showWarningMessage_exec. split; [reflexivity|].
  unfold hasClass, set_message. cbn [ui message classList].
  apply existsb_classList_add_same.
Qed.

Section MainFacts.

Variable trim : string -> string.
Variable Number : string -> JsNumber.

Lemma handleAddTurn_empty (w : World) :
  rawValue trim w = "" ->
  exec (handleAddTurn trim Number) w
  = exec (showWarningMessage "Please enter the points for this turn.") w.
Proof.
  unfold rawValue, handleAddTurn. intros E.
  rewrite exec_bind. change (fst (getUi w)) with (ui w).
  change (exec getUi w) with w. rewrite E. reflexivity.
Qed.

Lemma handleAddTurn_rejected (w : World) :
  rawValue trim w <> "" ->
  (Number (rawValue trim w) = JNonInteger \/
   exists n, Number (rawValue trim w) = JInt n /\ (n < 0 \/ 180 < n)) ->
  exec (handleAddTurn trim Number) w
  = exec (showWarningMessage
            "Points must be an integer between 0 and 180.") w.
Proof.
  unfold rawValue, handleAddTurn. intros NE H.
  rewrite exec_bind. change (fst (getUi w)) with (ui w).
  change (exec getUi w) with w.
  apply String.eqb_neq in NE. rewrite NE.
  destruct H as [H|[n [H R]]]; rewrite H; [reflexivity|].
  replace ((n <? 0) || (n >? 180)) with true; [reflexivity|].
  symmetry. apply orb_true_iff. rewrite Z.ltb_lt, Z.gtb_ltb, Z.ltb_lt.
  exact R.
Qed.

Lemma handleAddTurn_accepted (w : World) (n : Z) :
  rawValue trim w <> "" -> Number (rawValue trim w) = JInt n -> 0 <= n <= 180 ->
  exec (handleAddTurn trim Number) w
  = exec selectPointsInput
      (exec (afterAddTurn n (snd (Engine.addTurn (setState w) n)))
            (exec (addTurn n) w)).
Proof.
  unfold rawValue, handleAddTurn. intros NE H R.
  rewrite exec_bind. change (fst (getUi w)) with (ui w).
  change (exec getUi w) with w.
  apply String.eqb_neq in NE. rewrite NE, H.
  replace ((n <? 0) || (n >? 180)) with false.
  - rewrite !exec_bind, addTurn_result. unfold afterAddTurn.
    destruct (legFinished (snd (Engine.addTurn (setState w) n)));
      [destruct (res_winner (snd (Engine.addTurn (setState w) n)))|];
      reflexivity.
  - symmetry. apply orb_false_iff. rewrite Z.ltb_ge, Z.gtb_ltb, Z.ltb_ge.
    lia.
Qed.

Lemma afterAddTurn_exec (pts : Z) (result : AddTurnResult) (w : World) :
  setState (exec (afterAddTurn pts result) w) = setState w /\
  exists es,
    trace (exec (afterAddTurn pts result) w) = trace w ++ es /\
    forallb (fun e => negb (isAddTurnCall e)) es = true.
Proof.
  unfold afterAddTurn.
  destruct (legFinished result); [destruct (res_winner result) as [win|]|].
  - rewrite !exec_bind. change (fst (getSetState ?x)) with (setState x).
    change (exec getSetState ?x) with x.
    rewrite renderAll_exec. cbn [setState].
    destruct (isFinished (setState w));
      rewrite showSuccessMessage_exec; cbn [setState trace];
      (split; [reflexivity|]); eexists; (split; [reflexivity|]);
      apply renderEvents_no_addTurn.
  - rewrite showWarningMessage_exec. cbn [setState trace].
    split; [reflexivity|]. exists []. rewrite app_nil_r. split; reflexivity.
  - rewrite exec_bind, renderAll_exec.
    destruct (pts =? 0); rewrite showInfoMessage_exec; cbn [setState trace];
      (split; [reflexivity|]); eexists; (split; [reflexivity|]);
      apply renderEvents_no_addTurn.
Qed.

(** C3.  For every text in the points input: if its trimmed value is empty,
    or is not an integer for Number, or is an integer outside [0, 180], the
    adapter shows a warning, makes no call at all (so none to addTurn) and
    leaves the set state as it is; otherwise its first call is addTurn with
    the parsed integer on the current set state, and it calls addTurn only
    once. *)
Theorem handleAddTurn_validates (w : World) :
  let raw := rawValue trim w in
  let w' := exec (handleAddTurn trim Number) w in
  (raw = "" ->
     textContent (message (ui w')) = "Please enter the points for this turn."
     /\ hasClass "message--warning" (message (ui w')) = true
     /\ eventsOf (handleAddTurn trim Number) w = []
     /\ setState w' = setState w) /\
  (raw <> "" ->
   (Number raw = JNonInteger \/
    exists n, Number raw = JInt n /\ (n < 0 \/ 180 < n)) ->
     textContent (message (ui w'))
       = "Points must be an integer between 0 and 180."
     /\ hasClass "message--warning" (message (ui w')) = true
     /\ eventsOf (handleAddTurn trim Number) w = []
     /\ setState w' = setState w) /\
  (forall n, raw <> "" -> Number raw = JInt n -> 0 <= n <= 180 ->
     setState w' = fst (Engine.addTurn (setState w) n) /\
     exists rest,
       eventsOf (handleAddTurn trim Number) w
         = CallAddTurn (setState w) n :: rest /\
       forallb (fun e => negb (isAddTurnCall e)) rest = true).
Proof.
  cbv zeta. split; [|split].
  - intros E.
    pose proof (showWarningMessage_shown
                  "Please enter the points for this turn." w) as [T C].
    rewrite (handleAddTurn_empty w E).
    split; [exact T|]. split; [exact C|]. split; [|reflexivity].
    apply eventsOf_extend.
    rewrite (handleAddTurn_empty w E), showWarningMessage_exec.
    cbn [trace]. rewrite app_nil_r. reflexivity.
  - intros NE H.
    pose proof (showWarningMessage_shown
                  "Points must be an integer between 0 and 180." w) as [T C].
    rewrite (handleAddTurn_rejected w NE H).
    split; [exact T|]. split; [exact C|]. split; [|reflexivity].
    apply eventsOf_extend.
    rewrite (handleAddTurn_rejected w NE H),
      showWarningMessage_exec.
    cbn [trace]. rewrite app_nil_r. reflexivity.
  - intros n NE H R.
    destruct (afterAddTurn_exec n (snd (Engine.addTurn (setState w) n))
                (exec (addTurn n) w)) as [S [es [T F]]].
    split.
    + rewrite (handleAddTurn_accepted w n NE H R).
      unfold selectPointsInput. change (setState (exec (emit ?e) ?x))
        with (setState x).
      rewrite S, addTurn_exec. reflexivity.
    + exists (es ++ [DomSelectPointsInput]). split.
      * apply eventsOf_extend.
        rewrite (handleAddTurn_accepted w n NE H R).
        unfold selectPointsInput. change (trace (exec (emit ?e) ?x))
          with (trace x ++ [e]).
        rewrite T, addTurn_exec. cbn [trace].
        rewrite <- !app_assoc. reflexivity.
      * rewrite forallb_app, F. reflexivity.
Qed.

Lemma newLegDisabled_canStartNextLeg (s : SetState) :
  newLegDisabled s = negb (Engine.canStartNextLeg s).
Proof.
  unfold newLegDisabled, Engine.canStartNextLeg.
  destruct (currentLeg s) as [leg|]; [|reflexivity].
  destruct (isFinished s), (leg_isFinished leg); reflexivity.
Qed.

Lemma renderEvents_no_startNewSet (s : SetState) :
  forallb (fun e => negb (isStartNewSetCall e))
          (statusEvents s ++ playersEvents s) = true.
Proof.
  apply (forallb_weaken isQuery); [|apply renderEvents_queries].
  intros [] H; try discriminate H; reflexivity.
Qed.

(** C6.  The new-leg button is enabled by renderButtons exactly when
    canStartNextLeg holds of the set state, and the new-leg click handler
    first asks canStartNextLeg and invokes startNextLeg only, and then at
    once, when the answer is true. *)
Theorem newLeg_button_follows_canStartNextLeg (w : World) :
  let s := setState w in
  newLegButton (ui (exec renderButtons w))
    = negb (Engine.canStartNextLeg s) /\
  setState (exec onNewLegClick w)
    = (if Engine.canStartNextLeg s then Engine.startNextLeg s else s) /\
  exists rest,
    eventsOf onNewLegClick w
      = CallCanStartNextLeg s ::
        (if Engine.canStartNextLeg s then CallStartNextLeg s :: rest
         else []) /\
    existsb isStartNextLegCall rest = false.
Proof.
  cbv zeta. split; [|].
  - rewrite renderButtons_exec. apply newLegDisabled_canStartNextLeg.
  - unfold onNewLegClick. rewrite exec_bind.
    change (fst (canStartNextLeg w)) with (Engine.canStartNextLeg (setState w)).
    unfold eventsOf. rewrite exec_bind.
    change (fst (canStartNextLeg w)) with (Engine.canStartNextLeg (setState w)).
    change (exec canStartNextLeg w)
      with (mkWorld (setState w) (ui w)
                    (trace w ++ [CallCanStartNextLeg (setState w)])).
    destruct (Engine.canStartNextLeg (setState w)); cbn [negb].
    + rewrite !exec_bind.
      change (exec startNextLeg ?x)
        with (mkWorld (Engine.startNextLeg (setState x)) (ui x)
                      (trace x ++ [CallStartNextLeg (setState x)])).
      rewrite renderAll_exec, showInfoMessage_exec.
      unfold focusPointsInput.
      change (exec (emit ?e) ?x)
        with (mkWorld (setState x) (ui x) (trace x ++ [e])).
      cbn [setState ui trace]. split; [reflexivity|].
      eexists. split.
      * rewrite <- !app_assoc, skipn_app, skipn_all, Nat.sub_diag.
        cbn [skipn app]. reflexivity.
      * rewrite app_assoc, existsb_app, renderEvents_no_startNextLeg.
        reflexivity.
    + split; [reflexivity|]. exists [].
      split; [|reflexivity].
      cbn [exec ret snd trace].
      rewrite skipn_app, skipn_all, Nat.sub_diag. reflexivity.
Qed.

(** C7, as amended.  On a set-start form submission an absent or empty
    player1 name becomes "Player 1", an absent or empty player2 name becomes
    "Player 2", an absent or empty gameType becomes 501 and an absent or
    empty maxLegs becomes 5; whenever the two numbers are integers,
    startNewSet is called once, with exactly the four values, and its
    result becomes the set state. *)
Theorem setup_defaults (formData : FormData) (w : World) :
  let blank := fun field =>
    formData_get formData field = None \/
    formData_get formData field = Some "" in
  let v := setupValues Number formData in
  let player1 := fst (fst (fst v)) in
  let player2 := snd (fst (fst v)) in
  let gameTypeValue := snd (fst v) in
  let maxLegsValue := snd v in
  (blank "player1" -> player1 = "Player 1") /\
  (blank "player2" -> player2 = "Player 2") /\
  (blank "gameType" -> gameTypeValue = JInt 501) /\
  (blank "maxLegs" -> maxLegsValue = JInt 5) /\
  (forall g m, gameTypeValue = JInt g -> maxLegsValue = JInt m ->
     exists w' rest,
       onSetupSubmit Number formData w = Some w' /\
       setState w' = Engine.startNewSet player1 player2 g m /\
       trace w' = trace w ++ CallStartNewSet player1 player2 g m :: rest /\
       forallb (fun e => negb (isStartNewSetCall e)) rest = true).
Proof.
  cbv zeta.
  assert (D : forall (A : Type) (x : option string) (f : string -> A) (d : A),
             x = None \/ x = Some "" -> orDefault x f d = d).
  { intros A x f d [E|E]; rewrite E; reflexivity. }
  unfold onSetupSubmit.
  unfold setupValues at 1 2 3 4. cbn [fst snd].
  repeat (split; [apply D|]).
  destruct (setupValues Number formData) as [[[p1 p2] gv] mv] eqn:V.
  cbn [fst snd]. intros g m -> ->.
  rewrite !exec_bind.
  change (exec (startNewSet p1 p2 g m) w)
    with (mkWorld (Engine.startNewSet p1 p2 g m) (ui w)
                  (trace w ++ [CallStartNewSet p1 p2 g m])).
  rewrite renderAll_exec, showInfoMessage_exec.
  unfold focusPointsInput.
  change (exec (emit ?e) ?x)
    with (mkWorld (setState x) (ui x) (trace x ++ [e])).
  cbn [setState ui trace].
  eexists. eexists. split; [reflexivity|]. cbn [setState trace].
  split; [reflexivity|]. split.
  - rewrite <- !app_assoc. cbn [app]. reflexivity.
  - rewrite app_assoc, forallb_app, renderEvents_no_startNewSet.
    reflexivity.
Qed.

(** C1, what the code does instead of the claim.  On every submitted turn
    that addTurn rejects as a bust, no Turn is appended, the set state is
    unchanged and the result reports no leg finish and no winner; the
    adapter then takes its "leg not finished" branch: the message is the
    info message "Turn recorded. Next player's turn." ("No score this turn.
    Next player's turn." for 0 points), styled message--info, and the
    warning "This score would make the remaining points negative." is not
    shown. *)
Theorem bust_shows_turn_recorded (w : World) (n : Z)
    (Hraw : rawValue trim w <> "")
    (Hnum : Number (rawValue trim w) = JInt n)
    (Hrange : 0 <= n <= 180)
    (Hbust : Engine.isBust (setState w) n = true) :
  let w' := exec (handleAddTurn trim Number) w in
  Engine.addTurn (setState w) n = (setState w, Engine.noFinish) /\
  setState w' = setState w /\
  textContent (message (ui w'))
    = (if n =? 0 then "No score this turn. Next player's turn."
       else "Turn recorded. Next player's turn.") /\
  hasClass "message--info" (message (ui w')) = true /\
  hasClass "message--warning" (message (ui w')) = false.
Proof.
  cbv zeta. pose proof (addTurn_bust (setState w) n Hbust) as B.
  split; [exact B|].
  rewrite (handleAddTurn_accepted w n Hraw Hnum Hrange).
  rewrite B. cbn [snd]. unfold afterAddTurn, Engine.noFinish.
  cbn [legFinished res_winner].
  unfold selectPointsInput.
  change (exec (emit ?e) ?x)
    with (mkWorld (setState x) (ui x) (trace x ++ [e])).
  rewrite exec_bind, renderAll_exec, addTurn_exec, B. cbn [fst].
  destruct (n =? 0); rewrite showInfoMessage_exec;
    cbn [setState ui];
    (split; [reflexivity|]);
    change (message (renderedUi ?s ?u)) with (message u);
    unfold hasClass, set_message; cbn [message textContent classList];
    (split; [reflexivity|]);
    (split; [apply existsb_classList_add_same|]);
    (rewrite existsb_classList_add_other by reflexivity;
     apply existsb_classList_remove; reflexivity).
Qed.

End MainFacts.

(* ================================================================== *)
(** ** The theorems at work on the sample session *)

Lemma trim_nonempty (c : Ascii.ascii) (rest : string) :
  Ascii.isSpace c = false ->
  Ascii.trim (String c rest) <> "".
Proof.
  intros C. unfold Ascii.trim. cbn [Ascii.trimStart]. rewrite C.
  cbn [Ascii.trimEnd]. rewrite C.
  destruct (Ascii.trimEnd rest); discriminate.
Qed.

(** C1 at work: player 1 has 40 left and enters 45. *)
Lemma bust_shows_turn_recorded_at_forty_left :
  let w := typed fortyLeft "45" in
  let w' := exec (handleAddTurn Ascii.trim Ascii.Number) w in
  Engine.addTurn (setState w) 45 = (setState w, Engine.noFinish) /\
  setState w' = setState w /\
  textContent (message (ui w'))
    = (if 45 =? 0 then "No score this turn. Next player's turn."
       else "Turn recorded. Next player's turn.") /\
  hasClass "message--info" (message (ui w')) = true /\
  hasClass "message--warning" (message (ui w')) = false.
Proof.
  apply (bust_shows_turn_recorded Ascii.trim Ascii.Number
           (typed fortyLeft "45") 45).
  - apply trim_nonempty. reflexivity.
  - reflexivity.
  - lia.
  - vm_compute. reflexivity.
Defined.

(** C3 at work: on the started set, an input of blanks is refused without
    any call, and "60" reaches addTurn as 60. *)
Lemma handleAddTurn_validates_sample :
  eventsOf (handleAddTurn Ascii.trim Ascii.Number) (typed setStarted "  ")
    = [] /\
  setState (exec (handleAddTurn Ascii.trim Ascii.Number)
                 (typed setStarted "60"))
    = fst (Engine.addTurn (setState (typed setStarted "60")) 60).
Proof.
  split.
  - refine (proj1 (proj2 (proj2
              (proj1 (handleAddTurn_validates Ascii.trim Ascii.Number
                        (typed setStarted "  ")) _)))).
    reflexivity.
  - refine (proj1 (proj2 (proj2
              (handleAddTurn_validates Ascii.trim Ascii.Number
                 (typed setStarted "60"))) 60 _ _ _)).
    + apply trim_nonempty. reflexivity.
    + reflexivity.
    + lia.
Defined.

(** C7 at work: a form with empty names, no gameType and maxLegs 3. *)
Lemma setup_defaults_sample :
  fst (fst (fst (setupValues Ascii.Number bestOfThreeForm))) = "Player 1" /\
  snd (fst (setupValues Ascii.Number bestOfThreeForm)) = JInt 501 /\
  exists w' rest,
    onSetupSubmit Ascii.Number bestOfThreeForm pageLoaded = Some w' /\
    setState w' = Engine.startNewSet "Player 1" "Player 2" 501 3 /\
    trace w' = trace pageLoaded ++
               CallStartNewSet "Player 1" "Player 2" 501 3 :: rest /\
    forallb (fun e => negb (isStartNewSetCall e)) rest = true.
Proof.
  pose proof (setup_defaults Ascii.Number bestOfThreeForm pageLoaded)
    as [H1 [_ [H3 [_ H5]]]].
  split; [apply H1; right; reflexivity|].
  split; [apply H3; left; reflexivity|].
  apply (H5 501 3); reflexivity.
Defined.

(* ================================================================== *)
(** ** More on ui.ts: what the renderers write *)

Lemma renderedUi_fields (s : SetState) (u : UiElements) :
  renderedUi s u
  = mkUi (message u)
         (statusGameText s) (statusMaxLegsText s) (statusLegNumberText s)
         (statusCurrentPlayerText s)
         (playersRows s) (turnsRows s)
         (turnEntryDisabled s) (undoDisabled s) (newLegDisabled s)
         (mkInput (value (pointsInput u)) (turnEntryDisabled s)).
Proof. reflexivity. Qed.

Lemma renderAll_events (w : World) :
  eventsOf renderAll w = renderEvents (setState w).
Proof.
  apply eventsOf_extend. rewrite renderAll_exec. reflexivity.
Qed.

Lemma turnRowsFrom_length (s : SetState) (ts : list Turn) :
  forall k, List.length (turnRowsFrom s k ts) = List.length ts.
Proof.
  induction ts as [|t ts IH]; intros k; simpl; [reflexivity|].
  rewrite IH. reflexivity.
Qed.

Lemma turnRowsFrom_nth (s : SetState) (ts : list Turn) :
  forall (k : Z) (i : nat) (t : Turn),
    nth_error ts i = Some t ->
    nth_error (turnRowsFrom s k ts) i = Some (turnRow s t (k + Z.of_nat i)).
Proof.
  induction ts as [|t0 ts IH]; intros k i t H.
  - destruct i; discriminate H.
  - destruct i as [|i].
    + injection H as ->. simpl. rewrite Z.add_0_r. reflexivity.
    + simpl in H. cbn [turnRowsFrom nth_error].
      rewrite (IH (k + 1) i t H). f_equal. f_equal. lia.
Qed.

Lemma renderTurnsTable_row (w : World) (leg : LegState) (i : nat)
    (t : Turn) :
  currentLeg (setState w) = Some leg ->
  nth_error (turns leg) i = Some t ->
  nth_error (turnsTableBody (ui (exec renderTurnsTable w))) i
    = Some (turnRow (setState w) t (Z.of_nat i)).
Proof.
  intros Hleg H. rewrite renderTurnsTable_exec. cbn [ui].
  unfold set_turnsTableBody. cbn [turnsTableBody].
  unfold turnsRows. rewrite Hleg.
  rewrite (turnRowsFrom_nth _ _ 0 i t H). reflexivity.
Qed.

(** X1.  Without a current leg renderAll writes the placeholder into the
    four status elements, leaves both tables empty, disables the three
    buttons and the points input, and asks the engine nothing. *)
Theorem renderAll_without_leg (w : World)
    (Hleg : currentLeg (setState w) = None) :
  let u := ui (exec renderAll w) in
  (statusGame u = "–" /\ statusMaxLegs u = "–" /\
   statusLegNumber u = "–" /\ statusCurrentPlayer u = "–") /\
  (playersTableBody u = [] /\ turnsTableBody u = []) /\
  (addTurnButton u = true /\ undoTurnButton u = true /\
   newLegButton u = true /\ input_disabled (pointsInput u) = true) /\
  eventsOf renderAll w = [].
Proof.
  cbv zeta. rewrite renderAll_events, renderAll_exec. cbn [ui].
  rewrite renderedUi_fields.
  cbn [statusGame statusMaxLegs statusLegNumber statusCurrentPlayer
       playersTableBody turnsTableBody addTurnButton undoTurnButton
       newLegButton pointsInput input_disabled].
  unfold statusGameText, statusMaxLegsText, statusLegNumberText,
    statusCurrentPlayerText, playersRows, turnsRows, turnEntryDisabled,
    undoDisabled, newLegDisabled, renderEvents, statusEvents,
    asksCurrentPlayer, playersEvents.
  rewrite Hleg. repeat split.
Qed.

(** X1 at work: the page right after loading. *)
Lemma renderAll_without_leg_on_load :
  let u := ui pageLoaded in
  (statusGame u = "–" /\ statusMaxLegs u = "–" /\
   statusLegNumber u = "–" /\ statusCurrentPlayer u = "–") /\
  (playersTableBody u = [] /\ turnsTableBody u = []) /\
  (addTurnButton u = true /\ undoTurnButton u = true /\
   newLegButton u = true /\ input_disabled (pointsInput u) = true) /\
  eventsOf renderAll (mkWorld Engine.createEmptySet blankUi []) = [].
Proof.
  exact (renderAll_without_leg (mkWorld Engine.createEmptySet blankUi [])
           eq_refl).
Defined.

(** X2.  With a current leg renderPlayersTable leaves, whatever the table
    held before, one row per player in the players' order: the name, the
    legs won and the remaining score the engine returns for that player in
    that leg; it asks for exactly these remaining scores, in this order. *)
Theorem renderPlayersTable_rows (w : World) (leg : LegState)
    (Hleg : currentLeg (setState w) = Some leg) :
  let s := setState w in
  let rows := playersTableBody (ui (exec renderPlayersTable w)) in
  List.length rows = List.length (players s) /\
  (forall i p, nth_error (players s) i = Some p ->
     nth_error rows i
       = Some [name p; String_ (legsWon p);
               String_ (Engine.getRemainingScoreForPlayer leg (id p))]) /\
  eventsOf renderPlayersTable w
    = map (fun p => CallGetRemainingScoreForPlayer leg (id p)) (players s).
Proof.
  cbv zeta.
  assert (E : eventsOf renderPlayersTable w = playersEvents (setState w)).
  { apply eventsOf_extend. rewrite renderPlayersTable_exec. reflexivity. }
  rewrite E, renderPlayersTable_exec. cbn [ui].
  unfold set_playersTableBody. cbn [playersTableBody].
  unfold playersRows, playersEvents. rewrite Hleg.
  split; [apply length_map|]. split; [|reflexivity].
  intros i p H. rewrite nth_error_map, H. reflexivity.
Qed.

(** X2 at work: the players table in the middle of a leg. *)
Lemma renderPlayersTable_rows_mid_leg :
  let rows := playersTableBody (ui (exec renderPlayersTable midLeg)) in
  List.length rows = 2%nat /\
  nth_error rows 1 = Some ["Bo"; "0"; "441"].
Proof.
  destruct (renderPlayersTable_rows midLeg midLegTurns eq_refl)
    as [H1 [H2 _]].
  cbv zeta. split.
  - rewrite H1. reflexivity.
  - rewrite (H2 1%nat (mkPlayer 2 "Bo" 0) eq_refl). reflexivity.
Defined.

(** X3.  With a current leg renderTurnsTable leaves, whatever the table held
    before, one row per turn in the turns' order; the row of the turn at
    position i (from 0) starts with the number i + 1 and ends with the
    turn's points and running score; the engine is not asked anything. *)
Theorem renderTurnsTable_rows (w : World) (leg : LegState)
    (Hleg : currentLeg (setState w) = Some leg) :
  let s := setState w in
  let rows := turnsTableBody (ui (exec renderTurnsTable w)) in
  List.length rows = List.length (turns leg) /\
  (forall i t, nth_error (turns leg) i = Some t ->
     nth_error rows i
       = Some [String_ (Z.of_nat i + 1);
               match find (fun p => id p =? playerId t) (players s) with
               | Some p => name p
               | None => "?"
               end;
               String_ (points t); String_ (runningScore t)]) /\
  eventsOf renderTurnsTable w = [].
Proof.
  cbv zeta.
  assert (E : eventsOf renderTurnsTable w = []).
  { apply eventsOf_extend. rewrite renderTurnsTable_exec.
    cbn [trace]. rewrite app_nil_r. reflexivity. }
  rewrite E, renderTurnsTable_exec. cbn [ui].
  unfold set_turnsTableBody. cbn [turnsTableBody].
  unfold turnsRows. rewrite Hleg.
  split; [apply turnRowsFrom_length|]. split; [|reflexivity].
  intros i t H. rewrite (turnRowsFrom_nth _ _ 0 i t H). reflexivity.
Qed.

(** X3 at work: the turns table in the middle of a leg. *)
Lemma renderTurnsTable_rows_mid_leg :
  let rows := turnsTableBody (ui (exec renderTurnsTable midLeg)) in
  List.length rows = 2%nat /\
  nth_error rows 1 = Some ["2"; "Bo"; "60"; "441"].
Proof.
  destruct (renderTurnsTable_rows midLeg midLegTurns eq_refl)
    as [H1 [H2 _]].
  cbv zeta. split.
  - rewrite H1. reflexivity.
  - rewrite (H2 1%nat (mkTurn 2 60 441) eq_refl). reflexivity.
Defined.

(** X4.  In the turns table the player cell of a turn is "?" when no player
    of the set has the turn's player id, and otherwise the name of a player
    of the set with that id. *)
Theorem renderTurnsTable_player_cell (w : World) (leg : LegState)
    (i : nat) (t : Turn)
    (Hleg : currentLeg (setState w) = Some leg)
    (Hturn : nth_error (turns leg) i = Some t) :
  let s := setState w in
  let rows := turnsTableBody (ui (exec renderTurnsTable w)) in
  exists cell,
    nth_error rows i
      = Some [String_ (Z.of_nat i + 1); cell;
              String_ (points t); String_ (runningScore t)] /\
    ((forall p, In p (players s) -> id p <> playerId t) -> cell = "?") /\
    ((exists p, In p (players s) /\ id p = playerId t) ->
     exists p, In p (players s) /\ id p = playerId t /\ cell = name p).
Proof.
  cbv zeta.
  eexists. split.
  { rewrite (renderTurnsTable_row w leg i t Hleg Hturn). reflexivity. }
  split.
  - intros N.
    destruct (find (fun p => id p =? playerId t) (players (setState w)))
      as [p|] eqn:E; [|reflexivity].
    apply find_some in E. destruct E as [I Q].
    apply Z.eqb_eq in Q. destruct (N p I Q).
  - intros [p [I Q]].
    destruct (find (fun p => id p =? playerId t) (players (setState w)))
      as [q|] eqn:E.
    + apply find_some in E. destruct E as [Iq Qq].
      apply Z.eqb_eq in Qq. exists q. repeat split; assumption.
    + pose proof (find_none _ _ E p I) as C. cbv beta in C.
      apply Z.eqb_neq in C. destruct (C Q).
Qed.

(** X4 at work: a turn whose player id no player has. *)
Lemma renderTurnsTable_player_cell_stranger :
  exists cell,
    nth_error (turnsTableBody (ui (exec renderTurnsTable strangerTurn))) 0
      = Some ["1"; cell; "20"; "481"] /\
    cell = "?".
Proof.
  destruct (renderTurnsTable_player_cell strangerTurn
              (mkLeg 1 501 [mkTurn 7 20 481] false None) 0
              (mkTurn 7 20 481) eq_refl eq_refl) as [cell [R [Q _]]].
  exists cell. split; [exact R|].
  apply Q. intros p [<-|[<-|[]]]; discriminate.
Defined.

(** X5.  After renderButtons the add-turn and the new-leg button are never
    both enabled, and exactly one of them is enabled when a current leg
    exists and the set is not finished; the undo button is disabled whenever
    the add-turn button is, and otherwise exactly when the leg has no
    turns. *)
Theorem renderButtons_guards (w : World) :
  let s := setState w in
  let u := ui (exec renderButtons w) in
  addTurnButton u || newLegButton u = true /\
  xorb (negb (addTurnButton u)) (negb (newLegButton u))
    = match currentLeg s with
      | Some _ => negb (isFinished s)
      | None => false
      end /\
  undoTurnButton u
    = addTurnButton u ||
      match currentLeg s with
      | Some leg => Nat.eqb (List.length (turns leg)) 0
      | None => false
      end.
Proof.
  cbv zeta. rewrite renderButtons_exec. unfold buttonsUi.
  cbn [ui addTurnButton undoTurnButton newLegButton].
  unfold turnEntryDisabled, undoDisabled, newLegDisabled.
  destruct (currentLeg (setState w)) as [leg|]; [|repeat split].
  destruct (isFinished (setState w)), (leg_isFinished leg); repeat split.
Qed.

(** X6.  Rendering writes neither the message element nor the text of the
    points input: after renderAll and after each of the four renderers both
    are what they were. *)
Theorem rendering_keeps_message_and_input (w : World) :
  let kept := fun (m : M unit) =>
    message (ui (exec m w)) = message (ui w) /\
    value (pointsInput (ui (exec m w))) = value (pointsInput (ui w)) in
  kept renderAll /\ kept renderStatus /\ kept renderPlayersTable /\
  kept renderTurnsTable /\ kept renderButtons.
Proof.
  cbv beta zeta.
  rewrite renderAll_exec, renderStatus_exec, renderPlayersTable_exec,
    renderTurnsTable_exec, renderButtons_exec.
  repeat split.
Qed.

(** X7.  renderAll calls the engine only through its two queries: first
    getCurrentPlayerName, once, when a current leg exists and the set is not
    finished, then getRemainingScoreForPlayer once per player, in the
    players' order, when a current leg exists; nothing else. *)
Theorem renderAll_asks_only_queries (w : World) :
  let s := setState w in
  eventsOf renderAll w
    = match currentLeg s with
      | Some leg =>
          (if isFinished s then [] else [CallGetCurrentPlayerName s]) ++
          map (fun p => CallGetRemainingScoreForPlayer leg (id p))
              (players s)
      | None => []
      end.
Proof.
  cbv zeta. rewrite renderAll_events.
  unfold renderEvents, statusEvents, asksCurrentPlayer, playersEvents.
  destruct (currentLeg (setState w)); [|reflexivity].
  destruct (isFinished (setState w)); reflexivity.
Qed.

(** X8.  The four renderers write separate parts of the page: run in the
    reverse order they leave the same page as renderAll, and renderStatus
    and renderButtons leave the same page when run twice as when run
    once. *)
Theorem renderers_in_any_order (w : World) :
  ui (exec (renderButtons ;; renderTurnsTable ;; renderPlayersTable ;;
            renderStatus) w)
    = ui (exec renderAll w) /\
  ui (exec renderStatus (exec renderStatus w)) = ui (exec renderStatus w) /\
  ui (exec renderButtons (exec renderButtons w))
    = ui (exec renderButtons w).
Proof.
  rewrite !exec_bind.
  rewrite !renderStatus_exec, !renderPlayersTable_exec,
    !renderTurnsTable_exec, !renderButtons_exec, renderAll_exec.
  cbn [setState ui]. repeat split.
Qed.

(* ================================================================== *)
(** ** More on ui.ts: the message helpers and the class list *)

Lemma existsb_classList_remove_eq (c : string) (tokens cl : list string) :
  existsb (String.eqb c) (classList_remove tokens cl)
  = negb (existsb (String.eqb c) tokens) && existsb (String.eqb c) cl.
Proof.
  unfold classList_remove. induction cl as [|x cl IH].
  - rewrite andb_false_r. reflexivity.
  - cbn [filter existsb].
    destruct (String.eqb c x) eqn:CX.
    + apply String.eqb_eq in CX. subst x.
      destruct (existsb (String.eqb c) tokens); cbn [negb andb orb].
      * exact IH.
      * cbn [existsb]. rewrite String.eqb_refl. reflexivity.
    + destruct (existsb (String.eqb x) tokens); cbn [negb existsb orb].
      * exact IH.
      * rewrite CX. exact IH.
Qed.

Lemma existsb_classList_add_eq (c d : string) (cl : list string) :
  existsb (String.eqb c) (classList_add d cl)
  = String.eqb c d || existsb (String.eqb c) cl.
Proof.
  unfold classList_add.
  destruct (existsb (String.eqb d) cl) eqn:D.
  - destruct (String.eqb c d) eqn:CD; [|reflexivity].
    apply String.eqb_eq in CD. subst d. rewrite D. reflexivity.
  - rewrite existsb_app. cbn [existsb]. rewrite orb_false_r.
    apply orb_comm.
Qed.

Lemma classList_remove_idem (tokens cl : list string) :
  classList_remove tokens (classList_remove tokens cl)
  = classList_remove tokens cl.
Proof.
  unfold classList_remove. induction cl as [|x cl IH]; [reflexivity|].
  cbn [filter].
  destruct (existsb (String.eqb x) tokens) eqn:X; cbn [negb]; [exact IH|].
  cbn [filter]. rewrite X. cbn [negb]. rewrite IH. reflexivity.
Qed.

Lemma classList_restyle_idem (own : string) (others cl : list string) :
  existsb (String.eqb own) others = false ->
  classList_add own
    (classList_remove others
       (classList_add own (classList_remove others cl)))
  = classList_add own (classList_remove others cl).
Proof.
  intros O.
  assert (R : classList_remove others
                (classList_add own (classList_remove others cl))
              = classList_add own (classList_remove others cl)).
  { unfold classList_add at 1 2.
    destruct (existsb (String.eqb own) (classList_remove others cl)).
    - apply classList_remove_idem.
    - unfold classList_remove at 1. rewrite filter_app.
      fold (classList_remove others (classList_remove others cl)).
      rewrite classList_remove_idem. cbn [filter]. rewrite O. reflexivity. }
  rewrite R. unfold classList_add at 1.
  rewrite existsb_classList_add_same. reflexivity.
Qed.

(** X9.  A message helper changes nothing but the three styling classes: a
    class is on the message element afterwards exactly when it is the
    helper's own styling class, or it is not one of the two other styling
    classes and was on the element before. *)
Theorem showMessage_other_classes (text c : string) (w : World) :
  let before := hasClass c (message (ui w)) in
  let after := fun (m : M unit) => hasClass c (message (ui (exec m w))) in
  after (showInfoMessage text)
    = String.eqb c "message--info" ||
      negb (existsb (String.eqb c) ["message--warning"; "message--success"])
      && before /\
  after (showWarningMessage text)
    = String.eqb c "message--warning" ||
      negb (existsb (String.eqb c) ["message--info"; "message--success"])
      && before /\
  after (showSuccessMessage text)
    = String.eqb c "message--success" ||
      negb (existsb (String.eqb c) ["message--info"; "message--warning"])
      && before.
Proof.
  cbv beta zeta.
  rewrite showInfoMessage_exec, showWarningMessage_exec,
    showSuccessMessage_exec.
  unfold hasClass, set_message. cbn [ui message classList].
  rewrite !existsb_classList_add_eq, !existsb_classList_remove_eq.
  repeat split.
Qed.

(** X10.  Calling the same message helper again only replaces the text: the
    page after two calls is the page after the second call alone. *)
Theorem showMessage_again (text1 text2 : string) (w : World) :
  exec (showInfoMessage text2) (exec (showInfoMessage text1) w)
    = exec (showInfoMessage text2) w /\
  exec (showWarningMessage text2) (exec (showWarningMessage text1) w)
    = exec (showWarningMessage text2) w /\
  exec (showSuccessMessage text2) (exec (showSuccessMessage text1) w)
    = exec (showSuccessMessage text2) w.
Proof.
  rewrite !showInfoMessage_exec, !showWarningMessage_exec,
    !showSuccessMessage_exec.
  unfold set_message. cbn [setState ui trace message classList
    statusGame statusMaxLegs statusLegNumber statusCurrentPlayer
    playersTableBody turnsTableBody addTurnButton undoTurnButton
    newLegButton pointsInput].
  rewrite !classList_restyle_idem by reflexivity.
  repeat split.
Qed.

(* ================================================================== *)
(** ** More on main.ts: the listeners *)

Lemma inSync_rendered (s : SetState) (u : UiElements) (t : list Event) :
  inSync (mkWorld s (renderedUi s u) t).
Proof. unfold inSync. cbn [ui setState]. rewrite renderedUi_idem. reflexivity. Qed.

Lemma inSync_eq (w w' : World) :
  setState w' = setState w -> ui w' = ui w -> inSync w -> inSync w'.
Proof. unfold inSync. intros -> ->. exact (fun H => H). Qed.

Lemma inSync_set_message (m : MessageElement) (w w' : World) :
  setState w' = setState w -> ui w' = set_message m (ui w) ->
  inSync w -> inSync w'.
Proof.
  unfold inSync. intros -> ->. intros H.
  rewrite renderedUi_fields in *. rewrite H at 1.
  unfold set_message.
  cbn [message statusGame statusMaxLegs statusLegNumber statusCurrentPlayer
       playersTableBody turnsTableBody addTurnButton undoTurnButton
       newLegButton pointsInput value].
  reflexivity.
Qed.

Lemma inSync_typePoints (text : string) (w : World) :
  inSync w -> inSync (exec (typePoints text) w).
Proof.
  destruct w as [s [m a b c d e f g h i [v dis]] t].
  unfold inSync, typePoints, exec, modifyUi, set_pointsInput.
  rewrite !renderedUi_fields.
  cbn [snd ui setState message statusGame statusMaxLegs statusLegNumber
       statusCurrentPlayer playersTableBody turnsTableBody addTurnButton
       undoTurnButton newLegButton pointsInput value input_disabled].
  intros H. injection H as Ha Hb Hc Hd He Hf Hg Hh Hi Hj.
  congruence.
Qed.

(** In the engine a finished leg comes with its winner. *)
Lemma addTurn_winner (s : SetState) (pts : Z) :
  legFinished (snd (Engine.addTurn s pts)) = true ->
  exists win, snd (Engine.addTurn s pts) = mkResult true (Some win).
Proof.
  unfold Engine.addTurn, Engine.noFinish.
  destruct (currentLeg s) as [leg|]; [|discriminate].
  destruct (leg_isFinished leg || isFinished s); [discriminate|].
  destruct (Engine.currentPlayer s leg) as [p|]; [|discriminate].
  cbv zeta.
  destruct (Engine.getRemainingScoreForPlayer leg (id p) - pts <? 0);
    [discriminate|].
  destruct (Engine.getRemainingScoreForPlayer leg (id p) - pts =? 0);
    [|discriminate].
  intros _. eexists. reflexivity.
Qed.

Lemma afterAddTurn_won (pts : Z) (win : Player) (w : World) :
  exec (afterAddTurn pts (mkResult true (Some win))) w
  = exec (showSuccessMessage
            (if isFinished (setState w) then
               ("Leg won by " ++ name win ++
                ". The set is finished. Overall winner: " ++
                name win ++ ".")%string
             else
               ("Leg won by " ++ name win ++
                ". Start the next leg when ready.")%string))
         (exec renderAll w).
Proof.
  unfold afterAddTurn. cbn [legFinished res_winner].
  rewrite !exec_bind. change (fst (getSetState ?x)) with (setState x).
  change (exec getSetState ?x) with x.
  rewrite renderAll_exec. cbn [setState].
  destruct (isFinished (setState w)); reflexivity.
Qed.

Lemma afterAddTurn_goes_on (pts : Z) (result : AddTurnResult) (w : World) :
  legFinished result = false ->
  exec (afterAddTurn pts result) w
  = exec renderAll
      (exec (showInfoMessage
               (if pts =? 0 then "No score this turn. Next player's turn."
                else "Turn recorded. Next player's turn.")) w).
Proof.
  unfold afterAddTurn. intros ->. rewrite exec_bind.
  destruct (pts =? 0); reflexivity.
Qed.

Lemma select_exec (w : World) :
  exec selectPointsInput w
  = mkWorld (setState w) (ui w) (trace w ++ [DomSelectPointsInput]).
Proof. reflexivity. Qed.

Lemma focus_exec (w : World) :
  exec focusPointsInput w
  = mkWorld (setState w) (ui w) (trace w ++ [DomFocusPointsInput]).
Proof. reflexivity. Qed.

Lemma queries_checked (es : list Event) :
  forallb isQuery es = true -> Forall checkedCall es.
Proof.
  induction es as [|e es IH]; intros H; [constructor|].
  cbn [forallb] in H. apply andb_prop in H. destruct H as [He Hes].
  constructor; [|exact (IH Hes)].
  destruct e; try discriminate He; exact I.
Qed.

Lemma renderEvents_checked (s : SetState) : Forall checkedCall (renderEvents s).
Proof. apply queries_checked, renderEvents_queries. Qed.

Lemma continues_same (w w' : World) : trace w' = trace w -> continues w w'.
Proof.
  intros E. exists []. rewrite app_nil_r. split; [exact E|constructor].
Qed.

Lemma continues_refl (w : World) : continues w w.
Proof. apply continues_same. reflexivity. Qed.

Lemma continues_trans (w1 w2 w3 : World) :
  continues w1 w2 -> continues w2 w3 -> continues w1 w3.
Proof.
  intros [e1 [T1 F1]] [e2 [T2 F2]]. exists (e1 ++ e2).
  rewrite T2, T1, app_assoc. split; [reflexivity|].
  apply Forall_app. split; assumption.
Qed.

Lemma onUndoClick_exec (w : World) :
  exec onUndoClick w
  = mkWorld (Engine.removeLastTurn (setState w))
      (set_message
         (mkMessage "Last turn removed."
            (classList_add "message--info"
               (classList_remove ["message--warning"; "message--success"]
                  (classList (message (ui w))))))
         (renderedUi (Engine.removeLastTurn (setState w)) (ui w)))
      (trace w ++ CallRemoveLastTurn (setState w)
               :: renderEvents (Engine.removeLastTurn (setState w))).
Proof.
  unfold onUndoClick. rewrite !exec_bind.
  change (exec removeLastTurn w)
    with (mkWorld (Engine.removeLastTurn (setState w)) (ui w)
                  (trace w ++ [CallRemoveLastTurn (setState w)])).
  rewrite showInfoMessage_exec, renderAll_exec.
  cbn [setState ui trace]. unfold renderEvents.
  rewrite <- !app_assoc. reflexivity.
Qed.

Lemma onResetClick_exec (w : World) :
  exec onResetClick w
  = mkWorld (Engine.resetSet (setState w))
      (set_message
         (mkMessage "All data cleared. Start a new set."
            (classList_add "message--info"
               (classList_remove ["message--warning"; "message--success"]
                  (classList (message (ui w))))))
         (renderedUi (Engine.resetSet (setState w)) (ui w)))
      (trace w ++ CallResetSet (setState w)
               :: renderEvents (Engine.resetSet (setState w))).
Proof.
  unfold onResetClick. rewrite !exec_bind.
  change (exec resetSet w)
    with (mkWorld (Engine.resetSet (setState w)) (ui w)
                  (trace w ++ [CallResetSet (setState w)])).
  rewrite showInfoMessage_exec, renderAll_exec.
  cbn [setState ui trace]. unfold renderEvents.
  rewrite <- !app_assoc. reflexivity.
Qed.

Lemma onNewLegClick_exec (w : World) :
  exec onNewLegClick w
  = if Engine.canStartNextLeg (setState w) then
      mkWorld (Engine.startNextLeg (setState w))
        (set_message
           (mkMessage "New leg started. Continue scoring."
              (classList_add "message--info"
                 (classList_remove ["message--warning"; "message--success"]
                    (classList (message (ui w))))))
           (renderedUi (Engine.startNextLeg (setState w)) (ui w)))
        (trace w ++ CallCanStartNextLeg (setState w)
                 :: CallStartNextLeg (setState w)
                 :: renderEvents (Engine.startNextLeg (setState w))
                 ++ [DomFocusPointsInput])
    else
      mkWorld (setState w) (ui w)
              (trace w ++ [CallCanStartNextLeg (setState w)]).
Proof.
  unfold onNewLegClick. rewrite exec_bind.
  change (fst (canStartNextLeg w)) with (Engine.canStartNextLeg (setState w)).
  change (exec canStartNextLeg w)
    with (mkWorld (setState w) (ui w)
                  (trace w ++ [CallCanStartNextLeg (setState w)])).
  destruct (Engine.canStartNextLeg (setState w)); cbn [negb];
    [|reflexivity].
  rewrite !exec_bind.
  change (exec startNextLeg ?x)
    with (mkWorld (Engine.startNextLeg (setState x)) (ui x)
                  (trace x ++ [CallStartNextLeg (setState x)])).
  rewrite focus_exec, showInfoMessage_exec, renderAll_exec.
  cbn [setState ui trace]. unfold renderEvents.
  rewrite <- !app_assoc. reflexivity.
Qed.

Section MainMore.

Variable trim : string -> string.
Variable Number : string -> JsNumber.

(** The three ways through [handleAddTurn]. *)
Lemma handleAddTurn_cases (w : World) :
  exec (handleAddTurn trim Number) w
    = exec (showWarningMessage "Please enter the points for this turn.") w
  \/
  exec (handleAddTurn trim Number) w
    = exec (showWarningMessage
              "Points must be an integer between 0 and 180.") w
  \/
  exists n,
    rawValue trim w <> "" /\ Number (rawValue trim w) = JInt n /\
    0 <= n <= 180 /\
    exec (handleAddTurn trim Number) w
      = exec selectPointsInput
          (exec (afterAddTurn n (snd (Engine.addTurn (setState w) n)))
                (exec (addTurn n) w)).
Proof.
  destruct (String.eqb (rawValue trim w) "") eqn:E.
  - left. apply handleAddTurn_empty. apply String.eqb_eq. exact E.
  - apply String.eqb_neq in E. right.
    destruct (Number (rawValue trim w)) as [n|] eqn:N.
    + destruct (Z_lt_dec n 0) as [L|L];
        [left; apply handleAddTurn_rejected; [exact E|];
         right; exists n; split; [exact N|left; exact L]|].
      destruct (Z_lt_dec 180 n) as [G|G];
        [left; apply handleAddTurn_rejected; [exact E|];
         right; exists n; split; [exact N|right; exact G]|].
      right. exists n. split; [exact E|]. split; [reflexivity|].
      split; [lia|]. apply handleAddTurn_accepted; [exact E|exact N|lia].
    + left. apply handleAddTurn_rejected; [exact E|]. left. exact N.
Qed.

(** X11.  When addTurn reports a finished leg and its winner, handleAddTurn
    re-renders the page from the new set state and then shows a success
    message naming the winner, which says that the set is finished exactly
    when the new set state is finished; its calls are addTurn, the queries
    of one render and the selection of the input text. *)
Theorem handleAddTurn_leg_won (w : World) (n : Z) (win : Player)
    (Hraw : rawValue trim w <> "")
    (Hnum : Number (rawValue trim w) = JInt n)
    (Hrange : 0 <= n <= 180)
    (Hres : snd (Engine.addTurn (setState w) n)
            = mkResult true (Some win)) :
  let s' := fst (Engine.addTurn (setState w) n) in
  let w' := exec (handleAddTurn trim Number) w in
  setState w' = s' /\
  inSync w' /\
  textContent (message (ui w'))
    = (if isFinished s' then
         ("Leg won by " ++ name win ++
          ". The set is finished. Overall winner: " ++ name win ++ ".")%string
       else
         ("Leg won by " ++ name win ++
          ". Start the next leg when ready.")%string) /\
  hasClass "message--success" (message (ui w')) = true /\
  eventsOf (handleAddTurn trim Number) w
    = CallAddTurn (setState w) n :: renderEvents s' ++ [DomSelectPointsInput].
Proof.
  cbv zeta. unfold eventsOf.
  rewrite (handleAddTurn_accepted trim Number w n Hraw Hnum Hrange), Hres.
  rewrite afterAddTurn_won, select_exec, showSuccessMessage_exec,
    renderAll_exec, addTurn_exec.
  cbn [setState ui trace].
  split; [reflexivity|]. split.
  { eapply inSync_set_message
      with (w := mkWorld (fst (Engine.addTurn (setState w) n))
                   (renderedUi (fst (Engine.addTurn (setState w) n)) (ui w))
                   []);
      [reflexivity|reflexivity|apply inSync_rendered]. }
  split; [reflexivity|]. split.
  { unfold hasClass, set_message. cbn [message classList].
    apply existsb_classList_add_same. }
  rewrite <- !app_assoc, skipn_app, skipn_all, Nat.sub_diag.
  cbn [skipn app]. unfold renderEvents. rewrite <- ?app_assoc.
  reflexivity.
Qed.

(** X12.  When addTurn reports that the leg is not finished, handleAddTurn
    shows an info message ("No score this turn. Next player's turn." for 0
    points, "Turn recorded. Next player's turn." otherwise) and then
    re-renders the page from the set state addTurn left; its calls are
    addTurn, the queries of one render and the selection of the input
    text. *)
Theorem handleAddTurn_leg_goes_on (w : World) (n : Z)
    (Hraw : rawValue trim w <> "")
    (Hnum : Number (rawValue trim w) = JInt n)
    (Hrange : 0 <= n <= 180)
    (Hres : legFinished (snd (Engine.addTurn (setState w) n)) = false) :
  let s' := fst (Engine.addTurn (setState w) n) in
  let w' := exec (handleAddTurn trim Number) w in
  setState w' = s' /\
  inSync w' /\
  textContent (message (ui w'))
    = (if n =? 0 then "No score this turn. Next player's turn."
       else "Turn recorded. Next player's turn.") /\
  hasClass "message--info" (message (ui w')) = true /\
  eventsOf (handleAddTurn trim Number) w
    = CallAddTurn (setState w) n :: renderEvents s' ++ [DomSelectPointsInput].
Proof.
  cbv zeta. unfold eventsOf.
  rewrite (handleAddTurn_accepted trim Number w n Hraw Hnum Hrange).
  rewrite (afterAddTurn_goes_on _ _ _ Hres), select_exec, renderAll_exec,
    showInfoMessage_exec, addTurn_exec.
  cbn [setState ui trace].
  split; [reflexivity|]. split; [apply inSync_rendered|].
  change (message (renderedUi ?s ?u)) with (message u).
  unfold hasClass, set_message. cbn [message textContent classList].
  split; [reflexivity|]. split; [apply existsb_classList_add_same|].
  rewrite <- !app_assoc, skipn_app, skipn_all, Nat.sub_diag.
  cbn [skipn app]. unfold renderEvents. rewrite <- ?app_assoc.
  reflexivity.
Qed.

Lemma onSetupSubmit_exec (formData : FormData) (w w' : World) :
  onSetupSubmit Number formData w = Some w' ->
  exists player1 player2 g m,
    w' = mkWorld (Engine.startNewSet player1 player2 g m)
           (set_message
              (mkMessage "Set started. Enter points for the current player."
                 (classList_add "message--info"
                    (classList_remove
                       ["message--warning"; "message--success"]
                       (classList (message (ui w))))))
              (renderedUi (Engine.startNewSet player1 player2 g m) (ui w)))
           (trace w ++ CallStartNewSet player1 player2 g m
                    :: renderEvents (Engine.startNewSet player1 player2 g m)
                    ++ [DomFocusPointsInput]).
Proof.
  unfold onSetupSubmit.
  destruct (setupValues Number formData) as [[[p1 p2] [g|]] [m|]];
    try discriminate.
  intros H. injection H as <-. exists p1, p2, g, m.
  rewrite !exec_bind.
  change (exec (startNewSet p1 p2 g m) w)
    with (mkWorld (Engine.startNewSet p1 p2 g m) (ui w)
                  (trace w ++ [CallStartNewSet p1 p2 g m])).
  rewrite focus_exec, showInfoMessage_exec, renderAll_exec.
  cbn [setState ui trace]. unfold renderEvents.
  rewrite <- !app_assoc. reflexivity.
Qed.

Lemma handleAddTurn_inSync (w : World) :
  inSync w -> inSync (exec (handleAddTurn trim Number) w).
Proof.
  intros S.
  destruct (handleAddTurn_cases w) as [E|[E|[n [_ [_ [_ E]]]]]]; rewrite E.
  - eapply inSync_set_message with (w := w);
      [| |exact S]; rewrite showWarningMessage_exec; reflexivity.
  - eapply inSync_set_message with (w := w);
      [| |exact S]; rewrite showWarningMessage_exec; reflexivity.
  - destruct (legFinished (snd (Engine.addTurn (setState w) n))) eqn:L.
    + destruct (addTurn_winner _ _ L) as [win R]. rewrite R.
      rewrite afterAddTurn_won, select_exec, showSuccessMessage_exec,
        renderAll_exec, addTurn_exec.
      cbn [setState ui trace].
      eapply inSync_set_message
        with (w := mkWorld (fst (Engine.addTurn (setState w) n))
                     (renderedUi (fst (Engine.addTurn (setState w) n))
                                 (ui w)) []);
        [reflexivity|reflexivity|apply inSync_rendered].
    + rewrite (afterAddTurn_goes_on _ _ _ L), select_exec, renderAll_exec.
      apply inSync_rendered.
Qed.

Lemma handleAddTurn_continues (w : World) :
  continues w (exec (handleAddTurn trim Number) w).
Proof.
  destruct (handleAddTurn_cases w) as [E|[E|[n [_ [_ [R E]]]]]]; rewrite E.
  - rewrite showWarningMessage_exec. apply continues_same. reflexivity.
  - rewrite showWarningMessage_exec. apply continues_same. reflexivity.
  - destruct (legFinished (snd (Engine.addTurn (setState w) n))) eqn:L.
    + destruct (addTurn_winner _ _ L) as [win W]. rewrite W.
      rewrite afterAddTurn_won, select_exec, showSuccessMessage_exec,
        renderAll_exec, addTurn_exec.
      cbn [setState ui trace]. eexists. split.
      * rewrite <- !app_assoc. reflexivity.
      * constructor; [exact R|]. rewrite app_assoc.
        apply Forall_app. split; [apply renderEvents_checked|].
        constructor; [exact I|constructor].
    + rewrite (afterAddTurn_goes_on _ _ _ L), select_exec, renderAll_exec,
        showInfoMessage_exec, addTurn_exec.
      cbn [setState ui trace]. eexists. split.
      * rewrite <- !app_assoc. reflexivity.
      * constructor; [exact R|]. rewrite app_assoc.
        apply Forall_app. split; [apply renderEvents_checked|].
        constructor; [exact I|constructor].
Qed.

Lemma perform_inSync (w w' : World) (a : UserAction) :
  perform trim Number w a = Some w' -> inSync w -> inSync w'.
Proof.
  destruct a as [fd| | | |text| |key]; cbn [perform]; intros P S.
  - destruct (onSetupSubmit_exec fd w w' P) as [p1 [p2 [g [m ->]]]].
    eapply inSync_set_message
      with (w := mkWorld (Engine.startNewSet p1 p2 g m)
                   (renderedUi (Engine.startNewSet p1 p2 g m) (ui w)) []);
      [reflexivity|reflexivity|apply inSync_rendered].
  - injection P as <-. rewrite onResetClick_exec.
    eapply inSync_set_message
      with (w := mkWorld (Engine.resetSet (setState w))
                   (renderedUi (Engine.resetSet (setState w)) (ui w)) []);
      [reflexivity|reflexivity|apply inSync_rendered].
  - injection P as <-. rewrite onUndoClick_exec.
    eapply inSync_set_message
      with (w := mkWorld (Engine.removeLastTurn (setState w))
                   (renderedUi (Engine.removeLastTurn (setState w)) (ui w))
                   []);
      [reflexivity|reflexivity|apply inSync_rendered].
  - injection P as <-. rewrite onNewLegClick_exec.
    destruct (Engine.canStartNextLeg (setState w)).
    + eapply inSync_set_message
        with (w := mkWorld (Engine.startNextLeg (setState w))
                     (renderedUi (Engine.startNextLeg (setState w)) (ui w))
                     []);
        [reflexivity|reflexivity|apply inSync_rendered].
    + apply (inSync_eq w); [reflexivity|reflexivity|exact S].
  - injection P as <-. apply inSync_typePoints. exact S.
  - injection P as <-. apply handleAddTurn_inSync. exact S.
  - injection P as <-. unfold onPointsKeydown.
    destruct (String.eqb key "Enter");
      [apply handleAddTurn_inSync; exact S|exact S].
Qed.

Lemma perform_continues (w w' : World) (a : UserAction) :
  perform trim Number w a = Some w' -> continues w w'.
Proof.
  destruct a as [fd| | | |text| |key]; cbn [perform]; intros P.
  - destruct (onSetupSubmit_exec fd w w' P) as [p1 [p2 [g [m ->]]]].
    eexists. split; [reflexivity|].
    constructor; [exact I|]. apply Forall_app.
    split; [apply renderEvents_checked|]. constructor; [exact I|constructor].
  - injection P as <-. rewrite onResetClick_exec.
    eexists. split; [reflexivity|].
    constructor; [exact I|apply renderEvents_checked].
  - injection P as <-. rewrite onUndoClick_exec.
    eexists. split; [reflexivity|].
    constructor; [exact I|apply renderEvents_checked].
  - injection P as <-. rewrite onNewLegClick_exec.
    destruct (Engine.canStartNextLeg (setState w)) eqn:C.
    + eexists. split; [reflexivity|].
      constructor; [exact I|]. constructor; [exact C|]. apply Forall_app.
      split; [apply renderEvents_checked|].
      constructor; [exact I|constructor].
    + eexists. split; [reflexivity|]. constructor; [exact I|constructor].
  - injection P as <-. apply continues_same. reflexivity.
  - injection P as <-. apply handleAddTurn_continues.
  - injection P as <-. unfold onPointsKeydown.
    destruct (String.eqb key "Enter");
      [apply handleAddTurn_continues|apply continues_refl].
Qed.

Lemma performAll_invariant (actions : list UserAction) :
  forall w w',
    performAll trim Number w actions = Some w' ->
    (inSync w -> inSync w') /\ continues w w'.
Proof.
  induction actions as [|a actions IH]; intros w w' H.
  - injection H as <-. split; [exact (fun S => S)|apply continues_refl].
  - cbn [performAll] in H.
    destruct (perform trim Number w a) as [w1|] eqn:P; [|discriminate H].
    destruct (IH w1 w' H) as [S C]. split.
    + intros S0. apply S. exact (perform_inSync w w1 a P S0).
    + exact (continues_trans _ _ _ (perform_continues w w1 a P) C).
Qed.

(** X13.  After the page has loaded and through every sequence of user
    actions, the page shows the current set state: status texts, both
    tables and the disabled flags are the ones renderAll gives for it.  In
    particular the add-turn button and the points input are enabled exactly
    when addTurn's state preconditions hold, and the new-leg button exactly
    when canStartNextLeg holds. *)
Theorem session_page_in_sync (w0 w : World) (actions : list UserAction)
    (Hrun : session trim Number w0 actions = Some w) :
  inSync w /\
  addTurnButton (ui w) = negb (Engine.addTurnReady (setState w)) /\
  input_disabled (pointsInput (ui w))
    = negb (Engine.addTurnReady (setState w)) /\
  newLegButton (ui w) = negb (Engine.canStartNextLeg (setState w)).
Proof.
  unfold session in Hrun.
  destruct (performAll_invariant actions _ _ Hrun) as [S _].
  assert (I : inSync w).
  { apply S. unfold setupEventHandlers. rewrite renderAll_exec.
    apply inSync_rendered. }
  split; [exact I|]. unfold inSync in I. rewrite I, renderedUi_fields.
  cbn [addTurnButton newLegButton pointsInput input_disabled].
  rewrite newLegDisabled_canStartNextLeg.
  assert (T : turnEntryDisabled (setState w)
              = negb (Engine.addTurnReady (setState w))).
  { unfold turnEntryDisabled, Engine.addTurnReady.
    destruct (currentLeg (setState w)) as [leg|]; [|reflexivity].
    destruct (isFinished (setState w)), (leg_isFinished leg); reflexivity. }
  rewrite T. repeat split.
Qed.

(** X14.  Through every sequence of user actions the adapter calls addTurn
    only with an integer from 0 to 180 and startNextLeg only on a set state
    of which canStartNextLeg holds. *)
Theorem session_calls_checked (w0 w : World) (actions : list UserAction)
    (Hrun : session trim Number w0 actions = Some w) :
  exists es,
    trace w = trace w0 ++ es /\ Forall checkedCall es.
Proof.
  unfold session in Hrun.
  destruct (performAll_invariant actions _ _ Hrun) as [_ C].
  refine (continues_trans w0 _ w _ C).
  unfold setupEventHandlers. rewrite renderAll_exec.
  eexists. split; [reflexivity|]. apply renderEvents_checked.
Qed.

Lemma afterAddTurn_keeps_input (pts : Z) (result : AddTurnResult)
    (w : World) :
  value (pointsInput (ui (exec (afterAddTurn pts result) w)))
  = value (pointsInput (ui w)).
Proof.
  destruct result as [[|] [win|]].
  - rewrite afterAddTurn_won, showSuccessMessage_exec, renderAll_exec.
    reflexivity.
  - unfold afterAddTurn. cbn [legFinished res_winner].
    rewrite showWarningMessage_exec. reflexivity.
  - rewrite afterAddTurn_goes_on by reflexivity.
    rewrite renderAll_exec, showInfoMessage_exec. reflexivity.
  - rewrite afterAddTurn_goes_on by reflexivity.
    rewrite renderAll_exec, showInfoMessage_exec. reflexivity.
Qed.

(** X15.  With addTurn as modelled (a finished leg always comes with its
    winner), no submitted turn ever leaves the warning "This score would
    make the remaining points negative." in the message element: the branch
    of handleAddTurn that shows it is never taken. *)
Theorem handleAddTurn_never_warns_of_bust (w : World) :
  String.eqb
    (textContent (message (ui (exec (handleAddTurn trim Number) w))))
    "This score would make the remaining points negative."
  = false.
Proof.
  destruct (handleAddTurn_cases w) as [E|[E|[n [_ [_ [_ E]]]]]]; rewrite E.
  - rewrite showWarningMessage_exec. reflexivity.
  - rewrite showWarningMessage_exec. reflexivity.
  - destruct (legFinished (snd (Engine.addTurn (setState w) n))) eqn:L.
    + destruct (addTurn_winner _ _ L) as [win R]. rewrite R.
      rewrite afterAddTurn_won, select_exec, showSuccessMessage_exec.
      cbn [ui]. unfold set_message. cbn [message textContent].
      match goal with
      | |- context [if ?b then _ else _] => destruct b
      end; reflexivity.
    + rewrite (afterAddTurn_goes_on _ _ _ L), select_exec, renderAll_exec,
        showInfoMessage_exec.
      cbn [ui]. change (message (renderedUi ?s ?u)) with (message u).
      unfold set_message. cbn [ui message textContent].
      destruct (n =? 0); reflexivity.
Qed.

(** X16.  No listener writes the text of the points input: after a
    submitted turn (accepted or refused), an undo, a reset or a new-leg
    click the input holds the text it held before. *)
Theorem listeners_keep_input_text (w : World) :
  let kept := fun (m : M unit) =>
    value (pointsInput (ui (exec m w))) = value (pointsInput (ui w)) in
  kept (handleAddTurn trim Number) /\ kept onUndoClick /\
  kept onResetClick /\ kept onNewLegClick.
Proof.
  cbv beta zeta. split; [|split; [|split]].
  - destruct (handleAddTurn_cases w) as [E|[E|[n [_ [_ [_ E]]]]]]; rewrite E.
    + rewrite showWarningMessage_exec. reflexivity.
    + rewrite showWarningMessage_exec. reflexivity.
    + rewrite select_exec. cbn [ui]. rewrite afterAddTurn_keeps_input.
      reflexivity.
  - rewrite onUndoClick_exec. reflexivity.
  - rewrite onResetClick_exec. reflexivity.
  - rewrite onNewLegClick_exec.
    destruct (Engine.canStartNextLeg (setState w)); reflexivity.
Qed.

(** X17.  On a setup submission every field that is present and not empty
    is used as entered: the names are not trimmed (a name of spaces stays),
    and gameType and maxLegs are whatever Number makes of the entered
    text. *)
Theorem setup_keeps_entered_values (formData : FormData) :
  let v := setupValues Number formData in
  (forall x, formData_get formData "player1" = Some x -> x <> "" ->
     fst (fst (fst v)) = x) /\
  (forall x, formData_get formData "player2" = Some x -> x <> "" ->
     snd (fst (fst v)) = x) /\
  (forall x, formData_get formData "gameType" = Some x -> x <> "" ->
     snd (fst v) = Number x) /\
  (forall x, formData_get formData "maxLegs" = Some x -> x <> "" ->
     snd v = Number x).
Proof.
  cbv zeta. unfold setupValues. cbn [fst snd].
  repeat split; intros x E N; rewrite E; unfold orDefault;
    apply String.eqb_neq in N; rewrite N; reflexivity.
Qed.

End MainMore.

(** X18.  The undo and the reset click always act and always report: the
    engine is called once, the page is rendered from the set state it left,
    and the info message "Last turn removed." (undo) or "All data cleared.
    Start a new set." (reset) is shown, whether or not the call changed the
    set state. *)
Theorem undo_and_reset_always_report (w : World) :
  let s := setState w in
  let u := exec onUndoClick w in
  let r := exec onResetClick w in
  (setState u = Engine.removeLastTurn s /\ inSync u /\
   textContent (message (ui u)) = "Last turn removed." /\
   hasClass "message--info" (message (ui u)) = true /\
   eventsOf onUndoClick w
     = CallRemoveLastTurn s :: renderEvents (Engine.removeLastTurn s)) /\
  (setState r = Engine.resetSet s /\ inSync r /\
   textContent (message (ui r)) = "All data cleared. Start a new set." /\
   hasClass "message--info" (message (ui r)) = true /\
   eventsOf onResetClick w
     = CallResetSet s :: renderEvents (Engine.resetSet s)).
Proof.
  cbv zeta. unfold eventsOf.
  rewrite onUndoClick_exec, onResetClick_exec. cbn [setState ui trace].
  rewrite !skipn_app, !skipn_all, !Nat.sub_diag. cbn [skipn app].
  unfold hasClass, set_message. cbn [message textContent classList].
  rewrite !existsb_classList_add_same.
  split; (split; [reflexivity|]); (split; [|repeat split]).
  - eapply inSync_set_message
      with (w := mkWorld (Engine.removeLastTurn (setState w))
                   (renderedUi (Engine.removeLastTurn (setState w)) (ui w))
                   []);
      [reflexivity|reflexivity|apply inSync_rendered].
  - eapply inSync_set_message
      with (w := mkWorld (Engine.resetSet (setState w))
                   (renderedUi (Engine.resetSet (setState w)) (ui w)) []);
      [reflexivity|reflexivity|apply inSync_rendered].
Qed.

(** X19.  A new-leg click while canStartNextLeg is false changes neither
    the set state nor anything on the page; while it is true, the set state
    becomes what startNextLeg leaves, the page is rendered from it, the info
    message "New leg started. Continue scoring." is shown and the last
    effect is the focus on the points input. *)
Theorem onNewLegClick_page (w : World) :
  let s := setState w in
  let w' := exec onNewLegClick w in
  (Engine.canStartNextLeg s = false ->
     setState w' = s /\ ui w' = ui w) /\
  (Engine.canStartNextLeg s = true ->
     setState w' = Engine.startNextLeg s /\ inSync w' /\
     textContent (message (ui w')) = "New leg started. Continue scoring." /\
     hasClass "message--info" (message (ui w')) = true /\
     exists es, eventsOf onNewLegClick w = es ++ [DomFocusPointsInput]).
Proof.
  cbv zeta. unfold eventsOf. rewrite onNewLegClick_exec.
  split; intros C; rewrite C; cbn [setState ui trace].
  - split; reflexivity.
  - split; [reflexivity|]. split.
    { eapply inSync_set_message
        with (w := mkWorld (Engine.startNextLeg (setState w))
                     (renderedUi (Engine.startNextLeg (setState w)) (ui w))
                     []);
        [reflexivity|reflexivity|apply inSync_rendered]. }
    unfold hasClass, set_message. cbn [message textContent classList].
    split; [reflexivity|]. split; [apply existsb_classList_add_same|].
    rewrite skipn_app, skipn_all, Nat.sub_diag. cbn [skipn app].
    exists (CallCanStartNextLeg (setState w)
            :: CallStartNextLeg (setState w)
            :: renderEvents (Engine.startNextLeg (setState w))).
    reflexivity.
Qed.

(* ================================================================== *)
(** ** The further theorems at work *)

(** X11 at work: Ann checks out with 141. *)
Lemma handleAddTurn_leg_won_checkout :
  let w' := exec (handleAddTurn Ascii.trim Ascii.Number) checkoutTyped in
  inSync w' /\
  textContent (message (ui w'))
    = "Leg won by Ann. Start the next leg when ready.".
Proof.
  destruct (handleAddTurn_leg_won Ascii.trim Ascii.Number checkoutTyped 141
              (mkPlayer 1 "Ann" 1)) as [_ [S [T _]]].
  - apply trim_nonempty. reflexivity.
  - reflexivity.
  - lia.
  - reflexivity.
  - cbv zeta. split; [exact S|]. rewrite T. reflexivity.
Defined.

(** X12 at work: Ann scores 45 in the middle of a leg. *)
Lemma handleAddTurn_leg_goes_on_mid_leg :
  let w' := exec (handleAddTurn Ascii.trim Ascii.Number) midLegTyped in
  inSync w' /\
  textContent (message (ui w')) = "Turn recorded. Next player's turn.".
Proof.
  destruct (handleAddTurn_leg_goes_on Ascii.trim Ascii.Number midLegTyped 45)
    as [_ [S [T _]]].
  - apply trim_nonempty. reflexivity.
  - reflexivity.
  - lia.
  - reflexivity.
  - cbv zeta. split; [exact S|]. rewrite T. reflexivity.
Defined.

(** X13 at work: the end of the sample session. *)
Lemma session_page_in_sync_sample :
  inSync sampleSessionEnd /\
  addTurnButton (ui sampleSessionEnd)
    = negb (Engine.addTurnReady (setState sampleSessionEnd)) /\
  input_disabled (pointsInput (ui sampleSessionEnd))
    = negb (Engine.addTurnReady (setState sampleSessionEnd)) /\
  newLegButton (ui sampleSessionEnd)
    = negb (Engine.canStartNextLeg (setState sampleSessionEnd)).
Proof.
  apply (session_page_in_sync Ascii.trim Ascii.Number
           (mkWorld Engine.createEmptySet blankUi []) sampleSessionEnd
           sampleActions).
  vm_compute. reflexivity.
Defined.

(** X14 at work: the calls of the sample session. *)
Lemma session_calls_checked_sample :
  exists es,
    trace sampleSessionEnd
      = trace (mkWorld Engine.createEmptySet blankUi []) ++ es /\
    Forall checkedCall es.
Proof.
  apply (session_calls_checked Ascii.trim Ascii.Number
           (mkWorld Engine.createEmptySet blankUi []) sampleSessionEnd
           sampleActions).
  vm_compute. reflexivity.
Defined.

(** X17 at work: a name of two spaces and a gameType of 301. *)
Lemma setup_keeps_entered_values_sample :
  fst (fst (fst (setupValues Ascii.Number spacedNamesForm))) = "  " /\
  snd (fst (setupValues Ascii.Number spacedNamesForm)) = JInt 301.
Proof.
  destruct (setup_keeps_entered_values Ascii.Number spacedNamesForm)
    as [H1 [_ [H3 _]]].
  split.
  - apply H1; [reflexivity|discriminate].
  - rewrite (H3 "301"); [reflexivity|reflexivity|discriminate].
Defined.

(** X19 at work: a click in the middle of a leg and one after a won leg. *)
Lemma onNewLegClick_page_samples :
  ui (exec onNewLegClick midLeg) = ui midLeg /\
  statusLegNumber (ui (exec onNewLegClick wonLeg)) = "2".
Proof.
  split.
  - apply (onNewLegClick_page midLeg). reflexivity.
  - destruct (onNewLegClick_page wonLeg) as [_ H].
    destruct (H eq_refl) as [S [I _]].
    rewrite I, S. reflexivity.
Defined.

(* ================================================================== *)
(** ** The status line after a won leg, and names of spaces *)

(** C4, what the code does against the claim.  Whenever the current leg is
    finished and the set is not, renderStatus still invokes
    getCurrentPlayerName, outside its precondition of an unfinished leg, and
    writes the result into the current-player element; renderButtons, on the
    same state, does test the leg's finished flag and disables the add-turn
    button and the points input. *)
Theorem renderStatus_asks_after_leg_won (w : World) (leg : LegState)
    (Hleg : currentLeg (setState w) = Some leg)
    (Hfin : leg_isFinished leg = true)
    (Hset : isFinished (setState w) = false) :
  eventsOf renderStatus w = [CallGetCurrentPlayerName (setState w)] /\
  statusCurrentPlayer (ui (exec renderStatus w))
    = Engine.getCurrentPlayerName (setState w) /\
  addTurnButton (ui (exec renderButtons w)) = true /\
  input_disabled (pointsInput (ui (exec renderButtons w))) = true.
Proof.
  split.
  { apply eventsOf_extend. rewrite renderStatus_exec. cbn [trace].
    unfold statusEvents, asksCurrentPlayer. rewrite Hleg, Hset.
    reflexivity. }
  rewrite renderStatus_exec, renderButtons_exec. cbn [ui].
  unfold statusUi, buttonsUi.
  cbn [statusCurrentPlayer addTurnButton pointsInput input_disabled].
  unfold statusCurrentPlayerText, turnEntryDisabled.
  rewrite Hleg, Hset, Hfin. repeat split.
Qed.

(** C4 at the failing input: player 1 has checked out the first leg of a
    best-of-5 set.  The status line is given the name the engine returns
    for the finished leg, "Player 2", while turn entry is disabled and
    player 1 is the one to throw once the next leg has been started. *)
Lemma renderStatus_asks_after_leg_won_at_leg_won :
  (eventsOf renderStatus legWon = [CallGetCurrentPlayerName (setState legWon)]
   /\
   statusCurrentPlayer (ui (exec renderStatus legWon))
     = Engine.getCurrentPlayerName (setState legWon) /\
   addTurnButton (ui (exec renderButtons legWon)) = true /\
   input_disabled (pointsInput (ui (exec renderButtons legWon))) = true) /\
  Engine.getCurrentPlayerName (setState legWon) = "Player 2" /\
  Engine.getCurrentPlayerName (setState (exec onNewLegClick legWon))
    = "Player 1".
Proof.
  split.
  - apply (renderStatus_asks_after_leg_won legWon
             (mkLeg 1 501
                [mkTurn 1 180 321; mkTurn 2 0 501; mkTurn 1 180 141;
                 mkTurn 2 0 501; mkTurn 1 101 40; mkTurn 2 0 501;
                 mkTurn 1 40 0]
                true (Some 1))).
    + vm_compute. reflexivity.
    + reflexivity.
    + vm_compute. reflexivity.
  - vm_compute. split; reflexivity.
Defined.

(** C7, the claim as stated fails: a player1 name of two spaces is blank,
    yet the submit listener does not replace it by "Player 1"; startNewSet
    is called with the two spaces and the first player carries them as
    name. *)
Lemma setup_keeps_name_of_spaces :
  formData_get spacedNamesForm "player1" = Some "  " /\
  Ascii.trim "  " = "" /\
  fst (fst (fst (setupValues Ascii.Number spacedNamesForm))) = "  " /\
  exists w',
    onSetupSubmit Ascii.Number spacedNamesForm pageLoaded = Some w' /\
    hd_error (trace w') = Some (CallStartNewSet "  " "Bo" 301 3) /\
    map name (players (setState w')) = ["  "; "Bo"].
Proof.
  vm_compute. repeat split. eexists. repeat split.
Qed.
